(** * Business reporting tool: a shallow embedding of
      [Business_reporting_tool.py] and the properties of its report.

    The script is one linear pipeline: read [config.json], create the output
    directory, set up logging, load the CSV, check the required columns,
    aggregate (profit column, three totals, profit margin, summary file),
    and finally group the revenue by date and render the chart.

    Modelling choices.
    - Numbers are exact rationals ([Qc]); the binary64 rounding of pandas and
      numpy is outside the model, so sums and the ratio are the ideal ones.
    - A table is the ordered list of its rows, each row a finite map from
      column name to cell, next to the ordered list of its column names.
    - Effects are threaded through a state ([World]: directories, files, log
      stream, console) with [sys.exit] and exceptions as outcomes.
    - What the environment answers (content of the configuration file, result
      of [pd.read_csv], the date of the day, faults of the file system and of
      matplotlib) is a record of inputs, [Env]. *)

From Stdlib Require Import QArith Qcanon ZArith Qround Qabs Lqa OrdersEx Ascii
  String.
From stdpp Require Import base numbers strings list gmap fin_maps sorting.

Local Open Scope Qc_scope.

(** ** Exceptions and results *)

Inductive exn_kind :=
  | FileNotFoundError | JSONDecodeError | ParserError | TypeError
  | KeyError | ZeroDivisionError | OSError | OtherError.

(** An exception with the text that [str(e)] renders. *)
Record exn := Exn { exn_kind_of : exn_kind; exn_msg : string }.

Global Instance exn_kind_eq_dec : EqDecision exn_kind.
Proof. solve_decision. Defined.

Inductive result (A : Type) :=
  | Ok (a : A)
  | Raised (e : exn).
Arguments Ok {A} a.
Arguments Raised {A} e.

Global Instance result_ret : MRet result := λ A a, Ok a.
Global Instance result_bind : MBind result := λ A B f m,
  match m with Ok a => f a | Raised e => Raised e end.

(** ** Cells, series and tables *)

(** A cell of a table read by [pd.read_csv]: a number, a missing number, a
    string (object column), a timestamp (the parsed date column) or a missing
    timestamp. *)
Inductive cell :=
  | Num (q : Qc)
  | NaN
  | Str (s : string)
  | Stamp (t : Z)
  | NaT.

Global Instance cell_eq_dec : EqDecision cell.
Proof. solve_decision. Defined.

Abbreviation Series := (list cell) (only parsing).

Record DataFrame := mkDataFrame {
  columns : list string;
  rows : list (gmap string cell)
}.

(** The cells of a column, top to bottom.  A row that holds nothing under
    the name reads as missing. *)
Definition column_of (df : DataFrame) (name : string) : Series :=
  (λ r : gmap string cell, default NaN (r !! name)) <$> rows df.

(** [df[name]]: the column as a series, a [KeyError] when there is no such
    column. *)
Definition getitem (df : DataFrame) (name : string) : result Series :=
  if decide (name ∈ columns df) then Ok (column_of df name)
  else Raised (Exn KeyError name).

(** [df[name] = s]: the column is replaced where it stands, or appended as
    the last column. *)
Definition setitem (df : DataFrame) (name : string) (s : Series) : DataFrame :=
  {| columns := if decide (name ∈ columns df) then columns df
                else columns df ++ [name];
     rows := zip_with (λ (r : gmap string cell) v, <[name := v]> r)
               (rows df) s |}.

(** Element-wise [-] on the cells of two columns.  Numbers subtract and a
    missing number gives a missing number.  A column of strings does not
    subtract, and pandas refuses a timestamp column against a column of
    numbers or strings (at most one column, the date column, holds
    timestamps): both are a [TypeError]. *)
Definition cell_sub (a b : cell) : result cell :=
  match a, b with
  | Num x, Num y => Ok (Num (x - y))
  | Num _, NaN | NaN, Num _ | NaN, NaN => Ok NaN
  | _, _ => Raised (Exn TypeError "unsupported operand type(s) for -")
  end.

Fixpoint series_sub (a b : Series) : result Series :=
  match a, b with
  | x :: a', y :: b' =>
      v ← cell_sub x y; vs ← series_sub a' b'; mret (v :: vs)
  | _, _ => mret []
  end.

(** [Series.sum()]: missing values are skipped, the empty sum is 0.  The
    script sums only after the subtraction of line 58 went through, on cells
    that are numbers or missing; other cells are a [TypeError]. *)
Fixpoint series_sum (s : Series) : result Qc :=
  match s with
  | [] => mret 0
  | Num q :: s' => t ← series_sum s'; mret (q + t)
  | NaN :: s' => series_sum s'
  | _ :: _ => Raised (Exn TypeError "does not support sum operations")
  end.

(** ** Numbers *)

(** [a / b] on scalars; a zero divisor is a fault. *)
Definition py_div (a b : Qc) : result Qc :=
  if decide (b = 0) then Raised (Exn ZeroDivisionError "division by zero")
  else Ok (a / b).

(** Nearest integer, ties to the even one. *)
Definition round_half_even (x : Q) : Z :=
  let f := Qfloor x in
  match Qcompare (x - inject_Z f) (1 # 2) with
  | Lt => f
  | Gt => (f + 1)%Z
  | Eq => if Z.even f then f else (f + 1)%Z
  end.

Definition pow10 (n : nat) : Z := (10 ^ Z.of_nat n)%Z.

(** [round(x, ndigits)] *)
Definition py_round (x : Qc) (ndigits : nat) : Qc :=
  Q2Qc (inject_Z (round_half_even (x * inject_Z (pow10 ndigits)))
        / inject_Z (pow10 ndigits)).

(** ** The metrics (lines 58 to 76) *)

Abbreviation summary_t := (list (string * Qc)) (only parsing).

Record metrics := mkMetrics {
  total_revenue : Qc;
  total_cost : Qc;
  total_profit : Qc;
  profit_margin : Qc
}.

(** Line 58: [df["profit"] = df["revenue"] - df["cost"]]. *)
Definition add_profit (df : DataFrame) : result DataFrame :=
  rev ← getitem df "revenue";
  cost ← getitem df "cost";
  profit ← series_sub rev cost;
  mret (setitem df "profit" profit).

(** Line 62. *)
Definition margin (total_profit total_revenue : Qc) : result Qc :=
  if decide (total_revenue ≠ 0) then py_div total_profit total_revenue
  else Ok 0.

(** Lines 59 to 62, on the table that holds the profit column. *)
Definition totals (df : DataFrame) : result metrics :=
  rev ← getitem df "revenue";
  total_revenue ← series_sum rev;
  cost ← getitem df "cost";
  total_cost ← series_sum cost;
  profit ← getitem df "profit";
  total_profit ← series_sum profit;
  profit_margin ← margin total_profit total_revenue;
  mret (mkMetrics total_revenue total_cost total_profit profit_margin).

(** Lines 63 to 76. *)
Definition summary (m : metrics) : summary_t :=
  [ ("Total Revenue", total_revenue m);
    ("Total Cost", total_cost m);
    ("Total Profit", total_profit m);
    ("Profit Margin (%)", py_round (profit_margin m * Q2Qc 100) 2) ].

(** Lines 58 to 62 together. *)
Definition aggregate (df : DataFrame) : result (DataFrame * metrics) :=
  df' ← add_profit df;
  m ← totals df';
  mret (df', m).

(** ** Grouping by the date column (line 89) *)

(** The order in which [groupby] sorts its keys: numbers by value, strings
    lexicographically by character code, timestamps chronologically.  A
    column read from a CSV file holds one kind of key; keys of different
    kinds are ranked by kind. *)
Definition cell_rank (c : cell) : nat :=
  match c with
  | NaN => 0 | NaT => 1 | Num _ => 2 | Str _ => 3 | Stamp _ => 4
  end.

Definition cell_compare (a b : cell) : comparison :=
  match a, b with
  | Num x, Num y => (x ?= y)%Qc
  | Str s, Str t => String_as_OT.compare s t
  | Stamp s, Stamp t => (s ?= t)%Z
  | _, _ => Nat.compare (cell_rank a) (cell_rank b)
  end.

Definition cell_lt (a b : cell) : Prop := cell_compare a b = Lt.

(** Missing keys form no group ([dropna=True]). *)
Definition is_null (c : cell) : bool :=
  match c with NaN | NaT => true | _ => false end.

Abbreviation groups_t := (list (cell * list cell)) (only parsing).

(** One row enters the groups: it joins the group of its key, or opens a new
    group at the key's place in the order. *)
Fixpoint group_insert (k v : cell) (g : groups_t) : groups_t :=
  match g with
  | [] => [(k, [v])]
  | (k', vs) :: g' =>
      match cell_compare k k' with
      | Eq => (k', vs ++ [v]) :: g'
      | Lt => (k, [v]) :: (k', vs) :: g'
      | Gt => (k', vs) :: group_insert k v g'
      end
  end.

Fixpoint group_rows (kvs : list (cell * cell)) (g : groups_t) : groups_t :=
  match kvs with
  | [] => g
  | (k, v) :: kvs' =>
      group_rows kvs' (if is_null k then g else group_insert k v g)
  end.

Abbreviation series_t := (list (cell * Qc)) (only parsing).

Fixpoint sum_groups (g : groups_t) : result series_t :=
  match g with
  | [] => mret []
  | (k, vs) :: g' =>
      s ← series_sum vs; rest ← sum_groups g'; mret ((k, s) :: rest)
  end.

(** [df.groupby(date_column)["revenue"].sum()] *)
Definition daily_revenue (df : DataFrame) (date_column : string)
    : result series_t :=
  keys ← getitem df date_column;
  rev ← getitem df "revenue";
  sum_groups (group_rows (zip keys rev) []).

(** ** Paths ([pathlib], POSIX flavour) *)

(** A path is the list of its parts, the anchor first when it is absolute. *)
Abbreviation path := (list string) (only parsing).

Fixpoint split_slash (s : string) : list string :=
  match s with
  | EmptyString => [EmptyString]
  | String c s' =>
      if decide (c = "/"%char) then EmptyString :: split_slash s'
      else match split_slash s' with
           | w :: ws => String c w :: ws
           | [] => [String c EmptyString]
           end
  end.

Definition anchor (s : string) : list string :=
  match s with
  | String "/" (String "/" (String "/" _)) => ["/"]
  | String "/" (String "/" _) => ["//"]
  | String "/" _ => ["/"]
  | _ => []
  end.

(** [Path(s)]: empty parts and ["."] parts are dropped. *)
Definition Path (s : string) : path :=
  anchor s ++ filter (λ c : string, c ≠ "" ∧ c ≠ ".") (split_slash s).

(** [p / name] for a name without a slash. *)
Definition truediv (p : path) (name : string) : path := p ++ [name].

(** [str(p)] *)
Definition path_str (p : path) : string :=
  match p with
  | [] => "."
  | a :: rest =>
      if decide (a = "/" ∨ a = "//") then a +:+ String.concat "/" rest
      else String.concat "/" p
  end.

Definition parent (p : path) : path := take (length p - 1) p.

(** The path and all its ancestors, the current directory included. *)
Definition prefixes (p : path) : list path :=
  (λ n, take n p) <$> seq 0 (S (length p)).

(** The path and its ancestors below the current directory. *)
Definition proper_prefixes (p : path) : list path :=
  (λ n, take n p) <$> seq 1 (length p).

(** ** The world the script acts on *)

Inductive level := INFO | ERROR.

Record chart := mkChart {
  chart_series : series_t;
  chart_title : string;
  chart_xlabel : string;
  chart_ylabel : string
}.

Inductive artifact :=
  | SummaryCsv (s : summary_t)
  | ChartPng (c : chart)
  | Blob (s : string).

Inductive console_item :=
  | Line (s : string)
  | Table (s : summary_t).

Record World := mkWorld {
  dirs : gset path;
  files : gmap path artifact;
  log_file : option string;
  log : list (level * string);
  console : list console_item;
  shown : list chart
}.

(** The calls into matplotlib of lines 90 to 99, each of which may fault. *)
Inductive plt_call :=
  | PltFigure | PltPlot | PltTitle | PltXlabel | PltYlabel | PltGrid
  | PltTightLayout | PltSavefig | PltShow.

(** What the environment answers during one run. *)
Record Env := mkEnv {
  env_config : result (gmap string string);
  env_read_csv : string → string → result DataFrame;
  env_today : string;
  env_to_csv : option exn;
  env_plt : plt_call → option exn
}.

(** ** Scripts: state, [sys.exit] and exceptions *)

Inductive outcome (A : Type) :=
  | Return (a : A)
  | Exit (code : Z)
  | Throw (e : exn).
Arguments Return {A} a.
Arguments Exit {A} code.
Arguments Throw {A} e.

Definition Script (A : Type) : Type := World → World * outcome A.

Global Instance script_ret : MRet Script := λ A a w, (w, Return a).
Global Instance script_bind : MBind Script := λ A B f m w,
  match m w with
  | (w', Return a) => f a w'
  | (w', Exit c) => (w', Exit c)
  | (w', Throw e) => (w', Throw e)
  end.

Definition sys_exit {A} (code : Z) : Script A := λ w, (w, Exit code).

Definition throw {A} (e : exn) : Script A := λ w, (w, Throw e).

Definition lift {A} (r : result A) : Script A :=
  match r with Ok a => mret a | Raised e => throw e end.

(** [try: body  except ...: handler]; the handler re-throws what its clauses
    do not name.  [SystemExit] is no [Exception] and passes through. *)
Definition try_except {A} (body : Script A) (handler : exn → Script A)
    : Script A := λ w,
  match body w with
  | (w', Throw e) => handler e w'
  | r => r
  end.

Definition print (s : string) : Script unit := λ w,
  (mkWorld (dirs w) (files w) (log_file w) (log w) (console w ++ [Line s])
     (shown w),
   Return tt).

Definition print_table (s : summary_t) : Script unit := λ w,
  (mkWorld (dirs w) (files w) (log_file w) (log w) (console w ++ [Table s])
     (shown w),
   Return tt).

(** [logging.basicConfig(filename=..., filemode='a', ...)]: attaches the log
    file to the root logger, unless the logger has a destination already. *)
Definition basicConfig (filename : string) : Script unit := λ w,
  (mkWorld (dirs w) (files w)
     (match log_file w with None => Some filename | Some f => Some f end)
     (log w) (console w) (shown w),
   Return tt).

(** [logging.info], [logging.error]: one more line in the log stream, after
    those that are there. *)
Definition logging (l : level) (msg : string) : Script unit := λ w,
  (mkWorld (dirs w) (files w) (log_file w) (log w ++ [(l, msg)]) (console w)
     (shown w),
   Return tt).

(** [Path.mkdir(parents=True, exist_ok=True)]: the directory and its missing
    ancestors are created, and a directory that is there already is no
    error; a regular file at the path or at one of its ancestors is one. *)
Definition mkdir (p : path) : Script unit := λ w,
  if decide (Exists (λ q, is_Some (files w !! q)) (proper_prefixes p))
  then (w, Throw (Exn OSError ("File exists: " +:+ path_str p)))
  else (mkWorld (dirs w ∪ list_to_set (prefixes p)) (files w) (log_file w)
          (log w) (console w) (shown w),
        Return tt).

(** Writing a file, replacing what was there.  The directory must exist and
    the path must not name a directory; [fault] is any other failure of the
    file system. *)
Definition write_file (fault : option exn) (p : path) (a : artifact)
    : Script unit := λ w,
  match fault with
  | Some e => (w, Throw e)
  | None =>
      if decide (parent p ∈ dirs w) then
        if decide (p ∈ dirs w)
        then (w, Throw (Exn OSError ("Is a directory: " +:+ path_str p)))
        else (mkWorld (dirs w) (<[p := a]> (files w)) (log_file w) (log w)
                (console w) (shown w),
              Return tt)
      else (w, Throw (Exn FileNotFoundError
                        ("No such file or directory: " +:+ path_str p)))
  end.

Definition show (c : chart) : Script unit := λ w,
  (mkWorld (dirs w) (files w) (log_file w) (log w) (console w)
     (shown w ++ [c]),
   Return tt).

Fixpoint for_each {A} (l : list A) (body : A → Script unit) : Script unit :=
  match l with
  | [] => mret tt
  | x :: l' => body x;; for_each l' body
  end.

(** ** The script *)

Definition nl : string := String (ascii_of_nat 10) EmptyString.

(** [config.get(key, default)] *)
Definition config_get (config : gmap string string) (key dflt : string)
    : string :=
  default dflt (config !! key).

Definition required_columns : list string := ["revenue"; "cost"].

Section script.
Variable env : Env.

(** A call into matplotlib. *)
Definition plt (c : plt_call) : Script unit :=
  match env_plt env c with
  | Some e => throw e
  | None => mret tt
  end.

(** Lines 16 to 24. *)
Definition load_config : Script (gmap string string) :=
  try_except (lift (env_config env)) (λ e,
    match exn_kind_of e with
    | FileNotFoundError =>
        print "Configuration file 'config.json' not found.";; sys_exit 1
    | JSONDecodeError =>
        print ("Error parsing config file: " +:+ exn_msg e);; sys_exit 1
    | _ => throw e
    end).

(** Lines 40 to 51. *)
Definition load_data (DATA_FILE DATE_COLUMN : string) : Script DataFrame :=
  try_except
    (df ← lift (env_read_csv env DATA_FILE DATE_COLUMN);
     logging INFO ("Loaded data from " +:+ DATA_FILE +:+ " successfully.");;
     mret df)
    (λ e,
      match exn_kind_of e with
      | FileNotFoundError =>
          logging ERROR ("Data file '" +:+ DATA_FILE +:+ "' not found.");;
          sys_exit 1
      | ParserError =>
          logging ERROR ("Error parsing CSV file: " +:+ exn_msg e);;
          sys_exit 1
      | _ =>
          logging ERROR ("Unexpected error loading data: " +:+ exn_msg e);;
          sys_exit 1
      end).

(** Lines 52 to 56. *)
Definition validate (df : DataFrame) : Script unit :=
  for_each required_columns (λ col,
    if decide (col ∈ columns df) then mret tt
    else (logging ERROR ("Missing required column: " +:+ col);; sys_exit 1)).

(** Lines 58 to 84, the body of the third [try]; gives the table with its
    profit column and the date string. *)
Definition report_body (OUTPUT_DIR : string) (df : DataFrame)
    : Script (DataFrame * string) :=
  '(df', m) ← lift (aggregate df);
  let summary := summary m in
  print (nl +:+ "=== BUSINESS PERFORMANCE SUMMARY ===" +:+ nl);;
  print_table summary;;
  logging INFO "Metrics calculated and summary printed successfully.";;
  let today := env_today env in
  let summary_file :=
    truediv (Path OUTPUT_DIR) ("summary_" +:+ today +:+ ".csv") in
  write_file (env_to_csv env) summary_file (SummaryCsv summary);;
  logging INFO ("Summary saved to " +:+ path_str summary_file);;
  print (nl +:+ "Summary saved to: " +:+ path_str summary_file);;
  mret (df', today).

(** Lines 57 to 87. *)
Definition report (OUTPUT_DIR : string) (df : DataFrame)
    : Script (DataFrame * string) :=
  try_except (report_body OUTPUT_DIR df)
    (λ e,
      logging ERROR ("Error calculating metrics: " +:+ exn_msg e);;
      sys_exit 1).

(** Lines 89 to 101, the body of the last [try]. *)
Definition plot_body (OUTPUT_DIR DATE_COLUMN PLOT_TITLE PLOT_XLABEL
                        PLOT_YLABEL today : string) (df : DataFrame)
    : Script unit :=
  daily_revenue ← lift (daily_revenue df DATE_COLUMN);
  plt PltFigure;;
  plt PltPlot;;
  plt PltTitle;;
  plt PltXlabel;;
  plt PltYlabel;;
  plt PltGrid;;
  plt PltTightLayout;;
  let figure := mkChart daily_revenue PLOT_TITLE PLOT_XLABEL PLOT_YLABEL in
  let plot_file :=
    truediv (Path OUTPUT_DIR) ("daily_revenue_" +:+ today +:+ ".png") in
  write_file (env_plt env PltSavefig) plot_file (ChartPng figure);;
  plt PltShow;;
  show figure;;
  logging INFO ("Daily revenue plot saved to " +:+ path_str plot_file);;
  print ("Plot saved to: " +:+ path_str plot_file).

(** Lines 88 to 103. *)
Definition plot (OUTPUT_DIR DATE_COLUMN PLOT_TITLE PLOT_XLABEL PLOT_YLABEL
                   today : string) (df : DataFrame) : Script unit :=
  try_except
    (plot_body OUTPUT_DIR DATE_COLUMN PLOT_TITLE PLOT_XLABEL PLOT_YLABEL
       today df)
    (λ e, logging ERROR ("Error plotting daily revenue: " +:+ exn_msg e)).

Definition main : Script unit :=
  config ← load_config;
  let DATA_FILE := config_get config "data_file" "sales_data.csv" in
  let DATE_COLUMN := config_get config "date_column" "date" in
  let LOG_FILE := config_get config "log_file" "sales_analysis.log" in
  let PLOT_TITLE := config_get config "plot_title" "Daily Revenue Trend" in
  let PLOT_XLABEL := config_get config "plot_xlabel" "Date" in
  let PLOT_YLABEL := config_get config "plot_ylabel" "Revenue" in
  let OUTPUT_DIR := config_get config "output_dir" "outputs" in
  mkdir (Path OUTPUT_DIR);;
  basicConfig LOG_FILE;;
  logging INFO "Script started";;
  df ← load_data DATA_FILE DATE_COLUMN;
  validate df;;
  '(df, today) ← report OUTPUT_DIR df;
  plot OUTPUT_DIR DATE_COLUMN PLOT_TITLE PLOT_XLABEL PLOT_YLABEL today df.

(** Lines 16 to 87 alone: what [main] does before the last [try], with the
    values the last [try] reads. *)
Definition upto_report : Script (gmap string string * DataFrame * string) :=
  config ← load_config;
  let DATA_FILE := config_get config "data_file" "sales_data.csv" in
  let DATE_COLUMN := config_get config "date_column" "date" in
  let LOG_FILE := config_get config "log_file" "sales_analysis.log" in
  let OUTPUT_DIR := config_get config "output_dir" "outputs" in
  mkdir (Path OUTPUT_DIR);;
  basicConfig LOG_FILE;;
  logging INFO "Script started";;
  df ← load_data DATA_FILE DATE_COLUMN;
  validate df;;
  '(df, today) ← report OUTPUT_DIR df;
  mret (config, df, today).

(** The run of the process: the world it leaves and its exit status.  An
    exception that nothing catches ends the process with status 1. *)
Definition run (w : World) : World * Z :=
  match main w with
  | (w', Return _) => (w', 0%Z)
  | (w', Exit code) => (w', code)
  | (w', Throw _) => (w', 1%Z)
  end.
End script.

(** ** Vocabulary of the statements *)


(** A cell that arithmetic accepts: a number or a missing number. *)
Definition num_or_missing (c : cell) : bool :=
  match c with Num _ | NaN => true | _ => false end.

(** The required columns are there (what lines 52 to 56 check). *)
Definition validated (df : DataFrame) : Prop :=
  "revenue" ∈ columns df ∧ "cost" ∈ columns df.



(** The world with one more line in the log. *)
Definition logged (l : level) (msg : string) (w : World) : World :=
  mkWorld (dirs w) (files w) (log_file w) (log w ++ [(l, msg)]) (console w)
    (shown w).

(** No regular file stands where the directory [p] or one of its ancestors
    is to be. *)
Definition creatable (p : path) (w : World) : Prop :=
  Forall (λ q, files w !! q = None) (proper_prefixes p).

(** The world with the directory [p] and its ancestors. *)
Definition with_dir (p : path) (w : World) : World :=
  mkWorld (dirs w ∪ list_to_set (prefixes p)) (files w) (log_file w) (log w)
    (console w) (shown w).

(** The world with the log file attached, if none was. *)
Definition with_log_file (f : string) (w : World) : World :=
  mkWorld (dirs w) (files w)
    (match log_file w with None => Some f | Some f' => Some f' end)
    (log w) (console w) (shown w).

(** The two artifacts of a run into [OUTPUT_DIR] on the day [today]. *)
Definition summary_file (OUTPUT_DIR today : string) : path :=
  truediv (Path OUTPUT_DIR) ("summary_" +:+ today +:+ ".csv").

Definition plot_file (OUTPUT_DIR today : string) : path :=
  truediv (Path OUTPUT_DIR) ("daily_revenue_" +:+ today +:+ ".png").

(** A script that removes no directory. *)
Definition keeps_dirs {A} (m : Script A) : Prop :=
  ∀ w w' o, m w = (w', o) → dirs w ⊆ dirs w'.

(** A script that does not call [sys.exit]. *)
Definition no_exit {A} (m : Script A) : Prop :=
  ∀ w w' c, m w ≠ (w', Exit c).

(** A script that writes no file but, possibly, [p]. *)
Definition writes_only {A} (p : path) (m : Script A) : Prop :=
  ∀ w w' o, m w = (w', o) → ∀ q, q ≠ p → files w' !! q = files w !! q.

(** The world with one more line on the console. *)
Definition printed (s : string) (w : World) : World :=
  mkWorld (dirs w) (files w) (log_file w) (log w) (console w ++ [Line s])
    (shown w).

(** The world with one more table on the console. *)
Definition printed_table (s : summary_t) (w : World) : World :=
  mkWorld (dirs w) (files w) (log_file w) (log w) (console w ++ [Table s])
    (shown w).

(** The world with the file [p] holding [a]. *)
Definition written (p : path) (a : artifact) (w : World) : World :=
  mkWorld (dirs w) (<[p := a]> (files w)) (log_file w) (log w) (console w)
    (shown w).


(** The keys that the script reads from the configuration (lines 25 to
    31). *)
Definition recognized_keys : list string :=
  [ "data_file"; "date_column"; "log_file"; "plot_title"; "plot_xlabel";
    "plot_ylabel"; "output_dir" ].



(** A script that adds to the log and to the console, after what is
    there. *)
Definition appends_only {A} (m : Script A) : Prop :=
  ∀ w w' o, m w = (w', o) →
    log w `prefix_of` log w' ∧ console w `prefix_of` console w'.

(** A script whose calls of [sys.exit] all give the status 1. *)
Definition exits_with_1 {A} (m : Script A) : Prop :=
  ∀ w w' c, m w = (w', Exit c) → c = 1%Z.


(** An environment whose configuration cannot be loaded. *)
Definition env_without_config (e : exn) : Env :=
  mkEnv (Raised e) (λ _ _, Raised e) "20240131" None (λ _, None).

(** The world after the set-up of lines 32 to 39: output directory, log
    file, first log line. *)
Definition after_setup (config : gmap string string) (w : World) : World :=
  logged INFO "Script started"
    (with_log_file (config_get config "log_file" "sales_analysis.log")
       (with_dir (Path (config_get config "output_dir" "outputs")) w)).

(** The world after the successful load of lines 40 to 42. *)
Definition after_load (config : gmap string string) (w : World) : World :=
  logged INFO ("Loaded data from "
               +:+ config_get config "data_file" "sales_data.csv"
               +:+ " successfully.")
    (after_setup config w).




(** ** Sample inputs *)

Definition sales_row (d : cell) (revenue cost : Z) : gmap string cell :=
  {[ "date" := d; "revenue" := Num (Qc_of_Z revenue);
     "cost" := Num (Qc_of_Z cost) ]}.

(** The three rows of scenario A, with timestamps [d1] and [d2]. *)
Definition scenario_A (d1 d2 : Z) : DataFrame :=
  mkDataFrame ["date"; "revenue"; "cost"]
    [ sales_row (Stamp d1) 100 40;
      sales_row (Stamp d1) 50 10;
      sales_row (Stamp d2) 0 0 ].

(** A table whose file already has a column named profit. *)
Definition table_with_profit : DataFrame :=
  mkDataFrame ["revenue"; "cost"; "profit"]
    [ {[ "revenue" := Num (Qc_of_Z 10); "cost" := Num (Qc_of_Z 4);
         "profit" := Num (Qc_of_Z 999) ]} ].

Definition world_empty : World := mkWorld ∅ ∅ None [] [] [].


(** An environment without configuration keys that answers [pd.read_csv]
    with [df] and lets matplotlib fault as [faults] says. *)
Definition env_with (df : result DataFrame) (faults : plt_call → option exn)
    : Env :=
  mkEnv (Ok ∅) (λ _ _, df) "20240131" None faults.

Definition no_fault : plt_call → option exn := λ _, None.

Definition grid_fault : plt_call → option exn := λ c,
  match c with
  | PltGrid => Some (Exn OtherError "no display")
  | _ => None
  end.

(** A table that lacks the cost column. *)
Definition table_without_cost : DataFrame :=
  mkDataFrame ["date"; "revenue"]
    [ {[ "date" := Stamp 1; "revenue" := Num (Qc_of_Z 10) ]} ].

(** ** Results and series *)

(** Equality of two closed rationals, by their canonical forms. *)
Ltac qc_eq := apply Qc_is_canon; vm_compute; reflexivity.

(** Membership in a list that is written out. *)
Ltac in_list :=
  repeat first [apply list_elem_of_here | apply list_elem_of_further].

Ltac unfold_result :=
  unfold mbind, mret, result_bind, result_ret in *; simpl in *.

Lemma getitem_Ok df name :
  name ∈ columns df → getitem df name = Ok (column_of df name).
Proof. intros H. unfold getitem. by rewrite decide_True. Qed.

Lemma getitem_inv df name s :
  getitem df name = Ok s → name ∈ columns df ∧ s = column_of df name.
Proof. unfold getitem. case_decide; naive_solver. Qed.

Lemma length_column_of df name : length (column_of df name) = length (rows df).
Proof. unfold column_of. by rewrite length_fmap. Qed.

Lemma series_sub_length a b s :
  series_sub a b = Ok s → length s = min (length a) (length b).
Proof.
  revert b s. induction a as [|x a IH]; intros [|y b] s; simpl;
    try (intros [= <-]; done).
  unfold_result. destruct (cell_sub x y); [|done].
  destruct (series_sub a b) eqn:E; [|done].
  intros [= <-]. simpl. f_equal. by apply IH.
Qed.

Lemma series_sub_lookup a b s i x y :
  series_sub a b = Ok s → a !! i = Some x → b !! i = Some y →
  ∃ v, s !! i = Some v ∧ cell_sub x y = Ok v.
Proof.
  revert b s i. induction a as [|x' a IH]; intros [|y' b] s i; simpl; try done.
  unfold_result. destruct (cell_sub x' y') eqn:E1; [|done].
  destruct (series_sub a b) eqn:E2; [|done].
  intros [= <-]. destruct i as [|i]; simpl.
  - intros [= ->] [= ->]. eauto.
  - intros. eapply IH; eauto.
Qed.




(** A sum faults only on a cell that is neither a number nor missing. *)
Lemma series_sum_total s :
  Forall (λ c, num_or_missing c = true) s → ∃ q, series_sum s = Ok q.
Proof.
  induction 1 as [|c s Hc _ [q IH]]; simpl; [eauto|].
  destruct c; try done; unfold_result; rewrite IH; eauto.
Qed.


(** Where a subtraction succeeded, both operands were numbers or missing. *)
Lemma series_sub_operands a b s :
  series_sub a b = Ok s → length a = length b →
  Forall (λ c, num_or_missing c = true) a ∧
  Forall (λ c, num_or_missing c = true) b ∧
  Forall (λ c, num_or_missing c = true) s.
Proof.
  revert b s. induction a as [|x a IH]; intros [|y b] s; simpl; try done.
  { intros [= <-] _. repeat constructor. }
  unfold_result. destruct (cell_sub x y) eqn:E1; [|done].
  destruct (series_sub a b) eqn:E2; [|done].
  intros [= <-] [= Hlen]. destruct (IH _ _ E2 Hlen) as (? & ? & ?).
  destruct x, y; try done; simpl in E1; injection E1 as <-;
    repeat split; by constructor.
Qed.

(** ** Rounding *)



(** ** Tables *)

Lemma length_rows_setitem df name s :
  length s = length (rows df) →
  length (rows (setitem df name s)) = length (rows df).
Proof. intros H. simpl. rewrite length_zip_with. lia. Qed.

Lemma rows_setitem_lookup df name s i r v :
  rows df !! i = Some r → s !! i = Some v →
  rows (setitem df name s) !! i = Some (<[name := v]> r).
Proof.
  intros Hr Hv. unfold setitem; cbn [rows].
  by rewrite lookup_zip_with, Hr, Hv.
Qed.

Lemma column_zip_with_eq (rs : list (gmap string cell)) name s :
  length s = length rs →
  (λ r : gmap string cell, default NaN (r !! name))
    <$> zip_with (λ (r : gmap string cell) v, <[name := v]> r) rs s = s.
Proof.
  revert s. induction rs as [|r rs IH]; intros [|v s]; csimpl; try done.
  intros [= H]. by rewrite lookup_insert_eq, IH.
Qed.

Lemma column_zip_with_ne (rs : list (gmap string cell)) name c s :
  c ≠ name → length s = length rs →
  (λ r : gmap string cell, default NaN (r !! c))
    <$> zip_with (λ (r : gmap string cell) v, <[name := v]> r) rs s
  = (λ r : gmap string cell, default NaN (r !! c)) <$> rs.
Proof.
  intros Hne. revert s. induction rs as [|r rs IH]; intros [|v s]; csimpl;
    try done.
  intros [= H]. by rewrite lookup_insert_ne, IH.
Qed.

Lemma column_of_setitem_eq df name s :
  length s = length (rows df) → column_of (setitem df name s) name = s.
Proof. apply column_zip_with_eq. Qed.

Lemma column_of_setitem_ne df name c s :
  c ≠ name → length s = length (rows df) →
  column_of (setitem df name s) c = column_of df c.
Proof. apply column_zip_with_ne. Qed.

Lemma columns_setitem_incl df name s c :
  c ∈ columns df → c ∈ columns (setitem df name s).
Proof. simpl. case_decide; set_solver. Qed.

Lemma columns_setitem_name df name s : name ∈ columns (setitem df name s).
Proof. simpl. case_decide; set_solver. Qed.

(** What line 58 does when it does not fault. *)
Lemma add_profit_inv df df' :
  add_profit df = Ok df' →
  validated df ∧
  ∃ profit,
    series_sub (column_of df "revenue") (column_of df "cost") = Ok profit ∧
    length profit = length (rows df) ∧
    df' = setitem df "profit" profit.
Proof.
  unfold add_profit. unfold_result.
  destruct (getitem df "revenue") as [rev|] eqn:Hr; [|done].
  destruct (getitem df "cost") as [cost|] eqn:Hc; [|done].
  apply getitem_inv in Hr as [Hr ->]. apply getitem_inv in Hc as [Hc ->].
  destruct (series_sub _ _) as [p|] eqn:Hp; [|done].
  intros [= <-]. split; [done|]. exists p. split_and!; [done| |done].
  apply series_sub_length in Hp. rewrite Hp, !length_column_of. lia.
Qed.


Lemma margin_no_fault tp tr :
  margin tp tr = Ok (if decide (tr = 0) then 0 else tp / tr).
Proof.
  unfold margin, py_div. repeat case_decide; congruence.
Qed.

(** What lines 59 to 62 do on the table that line 58 has extended. *)
Lemma totals_after_add_profit df df' :
  add_profit df = Ok df' →
  ∃ tr tc tp,
    series_sum (column_of df "revenue") = Ok tr ∧
    series_sum (column_of df "cost") = Ok tc ∧
    series_sum (column_of df' "profit") = Ok tp ∧
    totals df' =
      Ok (mkMetrics tr tc tp (if decide (tr = 0) then 0 else tp / tr)).
Proof.
  intros H. destruct (add_profit_inv _ _ H) as ([Hr Hc] & p & Hp & Hlen & ->).
  destruct (series_sub_operands _ _ _ Hp) as (Ha & Hb & Hs).
  { by rewrite !length_column_of. }
  destruct (series_sum_total _ Ha) as [tr Htr].
  destruct (series_sum_total _ Hb) as [tc Htc].
  destruct (series_sum_total _ Hs) as [tp Htp].
  exists tr, tc, tp. rewrite column_of_setitem_eq by done.
  split_and!; try done. unfold totals.
  rewrite !getitem_Ok
    by first [apply columns_setitem_name | by apply columns_setitem_incl].
  rewrite (column_of_setitem_ne _ _ "revenue") by done.
  rewrite (column_of_setitem_ne _ _ "cost") by done.
  rewrite column_of_setitem_eq by done.
  unfold_result. rewrite Htr, Htc, Htp, margin_no_fault. done.
Qed.

Lemma aggregate_inv df df' m :
  aggregate df = Ok (df', m) → add_profit df = Ok df' ∧ totals df' = Ok m.
Proof.
  unfold aggregate. unfold_result.
  destruct (add_profit df) as [d|] eqn:Hd; [|done].
  destruct (totals d) as [m'|] eqn:Hm; [|done]. by intros [= <- <-].
Qed.

Lemma add_profit_Ok df profit :
  validated df →
  series_sub (column_of df "revenue") (column_of df "cost") = Ok profit →
  add_profit df = Ok (setitem df "profit" profit).
Proof.
  intros [Hr Hc] Hp. unfold add_profit.
  rewrite (getitem_Ok _ _ Hr), (getitem_Ok _ _ Hc). unfold_result.
  by rewrite Hp.
Qed.

Lemma aggregate_Ok df df' m :
  add_profit df = Ok df' → totals df' = Ok m → aggregate df = Ok (df', m).
Proof. intros H1 H2. unfold aggregate. unfold_result. by rewrite H1, H2. Qed.

(** ** The metrics *)





(** Outside the premise of C2: a missing cost makes the profit of the row
    missing, and the sums skip what is missing. *)
Example total_profit_with_missing_cost :
  ∃ df' m,
    aggregate (mkDataFrame ["revenue"; "cost"]
                 [ {[ "revenue" := Num (Qc_of_Z 5); "cost" := NaN ]} ])
      = Ok (df', m) ∧
    total_revenue m = Qc_of_Z 5 ∧ total_cost m = 0 ∧ total_profit m = 0.
Proof.
  eexists _, _. split; [reflexivity|]. split_and!; qc_eq.
Qed.



(** C8, as stated, fails: a column that the file already calls profit does
    not keep its values. *)
Lemma original_profit_column_replaced :
  ¬ (∀ df df' m, aggregate df = Ok (df', m) →
       ∀ c, c ∈ columns df →
         c ∈ columns df' ∧ column_of df' c = column_of df c).
Proof.
  intros H.
  destruct (aggregate table_with_profit) as [[df' m]|e] eqn:Hagg;
    [|vm_compute in Hagg; discriminate Hagg].
  destruct (H _ _ _ Hagg "profit") as [_ Heq]; [in_list|].
  vm_compute in Hagg. injection Hagg as <- _.
  vm_compute in Heq. discriminate Heq.
Qed.

(** C8, amended: the aggregation keeps the rows in their order, changes in
    each row nothing but the cell under profit, which becomes revenue minus
    cost, keeps every column in its place, and appends profit as the last
    column unless the table already had a column of that name, whose values
    it replaces. *)
Theorem aggregation_frame df df' m :
  aggregate df = Ok (df', m) →
  length (rows df') = length (rows df) ∧
  (∀ i r, rows df !! i = Some r →
     ∃ v, cell_sub (default NaN (r !! "revenue")) (default NaN (r !! "cost"))
            = Ok v ∧
          rows df' !! i = Some (<["profit" := v]> r)) ∧
  (∀ c, c ≠ "profit" → column_of df' c = column_of df c) ∧
  (∀ c, c ∈ columns df → c ∈ columns df') ∧
  columns df' = (if decide ("profit" ∈ columns df) then columns df
                 else columns df ++ ["profit"]).
Proof.
  intros [Hadd _]%aggregate_inv.
  destruct (add_profit_inv _ _ Hadd) as (_ & p & Hp & Hlen & ->).
  split_and!.
  - by apply length_rows_setitem.
  - intros i r Hr.
    destruct (lookup_lt_is_Some_2 p i) as [v' Hv'].
    { rewrite Hlen. by eapply lookup_lt_Some. }
    destruct (series_sub_lookup _ _ _ i (default NaN (r !! "revenue"))
                (default NaN (r !! "cost")) Hp) as (v & Hv & Hsub).
    { unfold column_of. by rewrite list_lookup_fmap, Hr. }
    { unfold column_of. by rewrite list_lookup_fmap, Hr. }
    exists v. split; [done|]. by apply rows_setitem_lookup.
  - intros c Hc. by apply column_of_setitem_ne.
  - intros c Hc. by apply columns_setitem_incl.
  - done.
Qed.

Lemma aggregation_frame_witness :
  ∃ df' m,
    aggregate (scenario_A 1 2) = Ok (df', m) ∧
    length (rows df') = length (rows (scenario_A 1 2)).
Proof.
  destruct (aggregate (scenario_A 1 2)) as [[df' m]|e] eqn:H;
    [|vm_compute in H; discriminate H].
  exists df', m. split; [reflexivity|].
  exact (proj1 (aggregation_frame _ _ _ H)).
Defined.

(** C9: a table without rows that has the required columns aggregates
    without fault; the three totals and the margin are 0 and the summary has
    its four rows, all 0. *)
Theorem empty_table_summary cols :
  "revenue" ∈ cols → "cost" ∈ cols →
  ∃ df' m,
    aggregate (mkDataFrame cols []) = Ok (df', m) ∧
    rows df' = [] ∧
    total_revenue m = 0 ∧ total_cost m = 0 ∧ total_profit m = 0 ∧
    profit_margin m = 0 ∧
    summary m =
      [ ("Total Revenue", 0); ("Total Cost", 0); ("Total Profit", 0);
        ("Profit Margin (%)", 0) ].
Proof.
  intros Hr Hc.
  assert (Hadd : add_profit (mkDataFrame cols [])
                 = Ok (setitem (mkDataFrame cols []) "profit" [])).
  { by apply add_profit_Ok. }
  destruct (totals_after_add_profit _ _ Hadd) as (tr&tc&tp&Htr&Htc&Htp&Ht).
  injection Htr as <-. injection Htc as <-. injection Htp as <-.
  eexists _, _. split; [by apply aggregate_Ok|]. simpl.
  split_and!; try done. unfold summary. simpl.
  repeat f_equal. qc_eq.
Qed.

Lemma empty_table_summary_witness :
  "revenue" ∈ ["date"; "revenue"; "cost"] ∧
  "cost" ∈ ["date"; "revenue"; "cost"] ∧
  ∃ df' m,
    aggregate (mkDataFrame ["date"; "revenue"; "cost"] []) = Ok (df', m) ∧
    profit_margin m = 0.
Proof.
  assert (Hr : "revenue" ∈ ["date"; "revenue"; "cost"]) by in_list.
  assert (Hc : "cost" ∈ ["date"; "revenue"; "cost"]) by in_list.
  split; [exact Hr|]. split; [exact Hc|].
  destruct (empty_table_summary _ Hr Hc)
    as (df' & m & H & _ & _ & _ & _ & Hm & _).
  exact (ex_intro _ df' (ex_intro _ m (conj H Hm))).
Defined.

(** ** The order of the group keys *)

Lemma cell_compare_refl a : cell_compare a a = Eq.
Proof.
  destruct a; simpl; try done.
  - by apply Qceq_alt.
  - destruct (String_as_OT.compare_spec s s) as [?|H|H]; [done| |];
      by apply (irreflexivity String_as_OT.lt) in H.
  - apply Z.compare_refl.
Qed.



Lemma cell_lt_irrefl a : ¬ cell_lt a a.
Proof. unfold cell_lt. by rewrite cell_compare_refl. Qed.

Lemma cell_lt_trans a b c : cell_lt a b → cell_lt b c → cell_lt a c.
Proof.
  unfold cell_lt. destruct a, b, c; simpl; try done.
  - rewrite <-!Qclt_alt. apply Qclt_trans.
  - apply (transitivity (R := String_as_OT.lt)).
  - rewrite !Z.compare_lt_iff. lia.
Qed.

Global Instance cell_lt_strict : StrictOrder cell_lt.
Proof.
  split; [intros a; apply cell_lt_irrefl | intros a b c; apply cell_lt_trans].
Qed.


(** ** Groups *)









(** The values of the pairs with key [k], in order. *)
Lemma filter_key_app k (l1 l2 : list (cell * cell)) :
  snd <$> filter (λ kv : cell * cell, kv.1 = k) (l1 ++ l2)
  = (snd <$> filter (λ kv : cell * cell, kv.1 = k) l1)
    ++ (snd <$> filter (λ kv : cell * cell, kv.1 = k) l2).
Proof. by rewrite filter_app, fmap_app. Qed.








(** ** The daily revenue series *)



(** C7: on the three rows of scenario A, with two different dates, the
    totals are 150, 50 and 100, the summary reports them with a margin of
    66.67, and the daily revenue series gives 150 for the first date and 0
    for the second, the earlier date first. *)
Theorem scenario_A_report (d1 d2 : Z) :
  d1 ≠ d2 →
  ∃ df' m,
    aggregate (scenario_A d1 d2) = Ok (df', m) ∧
    total_revenue m = Qc_of_Z 150 ∧
    total_cost m = Qc_of_Z 50 ∧
    total_profit m = Qc_of_Z 100 ∧
    summary m =
      [ ("Total Revenue", Qc_of_Z 150); ("Total Cost", Qc_of_Z 50);
        ("Total Profit", Qc_of_Z 100);
        ("Profit Margin (%)", Q2Qc (6667 # 100)) ] ∧
    daily_revenue df' "date" =
      Ok (if decide (d1 < d2)%Z
          then [(Stamp d1, Qc_of_Z 150); (Stamp d2, Qc_of_Z 0)]
          else [(Stamp d2, Qc_of_Z 0); (Stamp d1, Qc_of_Z 150)]).
Proof.
  intros Hne.
  destruct (aggregate (scenario_A d1 d2)) as [[df' m]|e] eqn:H;
    [|vm_compute in H; discriminate H].
  exists df', m. split; [done|].
  assert (Hcols :
    column_of df' "date" = [Stamp d1; Stamp d1; Stamp d2] ∧
    column_of df' "revenue"
      = [Num (Qc_of_Z 100); Num (Qc_of_Z 50); Num (Qc_of_Z 0)] ∧
    "date" ∈ columns df' ∧ "revenue" ∈ columns df').
  { vm_compute in H. injection H as Hdf _. rewrite <-Hdf.
    split_and!; [reflexivity|reflexivity|in_list|in_list]. }
  destruct Hcols as (Hd & Hr & Hdin & Hrin).
  vm_compute in H. injection H as _ Hm. rewrite <-Hm.
  split; [qc_eq|]. split; [qc_eq|]. split; [qc_eq|]. split.
  { unfold summary. simpl. repeat f_equal; qc_eq. }
  unfold daily_revenue.
  rewrite (getitem_Ok _ _ Hdin), (getitem_Ok _ _ Hrin), Hd, Hr.
  unfold mbind, result_bind. simpl. rewrite Z.compare_refl. simpl.
  destruct (Z.compare_spec d2 d1) as [?|Hlt|Hlt]; [done| |]; simpl.
  - rewrite decide_False by lia. unfold_result. repeat f_equal; qc_eq.
  - rewrite decide_True by lia. unfold_result. repeat f_equal; qc_eq.
Qed.

Lemma scenario_A_report_witness :
  (1 ≠ 2)%Z ∧
  ∃ df' m,
    aggregate (scenario_A 1 2) = Ok (df', m) ∧
    total_revenue m = Qc_of_Z 150.
Proof.
  assert (Hne : (1 ≠ 2)%Z) by discriminate.
  split; [exact Hne|].
  destruct (scenario_A_report 1 2 Hne) as (df' & m & H & Hr & _).
  exact (ex_intro _ df' (ex_intro _ m (conj H Hr))).
Defined.

(** ** Running scripts *)

Ltac unfold_script :=
  unfold mbind, mret, script_bind, script_ret, try_except, lift, throw,
    sys_exit, logging, basicConfig, print, print_table, show in *.

Lemma bind_run {A B} (m : Script A) (f : A → Script B) w :
  (m ≫= f) w =
  match m w with
  | (w', Return a) => f a w'
  | (w', Exit c) => (w', Exit c)
  | (w', Throw e) => (w', Throw e)
  end.
Proof. reflexivity. Qed.

Section frames.
Context {A B : Type}.

Lemma keeps_dirs_ret (a : A) : keeps_dirs (mret a : Script A).
Proof. by intros w w' o [= <- <-]. Qed.

Lemma keeps_dirs_bind (m : Script A) (f : A → Script B) :
  keeps_dirs m → (∀ a, keeps_dirs (f a)) → keeps_dirs (m ≫= f).
Proof.
  intros Hm Hf w w' o. rewrite bind_run.
  destruct (m w) as [w1 [a|c|e]] eqn:E; specialize (Hm _ _ _ E).
  - intros H. apply Hf in H. set_solver.
  - by intros [= <- <-].
  - by intros [= <- <-].
Qed.

Lemma keeps_dirs_try (m : Script A) (h : exn → Script A) :
  keeps_dirs m → (∀ e, keeps_dirs (h e)) → keeps_dirs (try_except m h).
Proof.
  intros Hm Hh w w' o. unfold try_except.
  destruct (m w) as [w1 [a|c|e]] eqn:E; specialize (Hm _ _ _ E).
  - by intros [= <- <-].
  - by intros [= <- <-].
  - intros H. apply Hh in H. set_solver.
Qed.

Lemma keeps_dirs_exit c : keeps_dirs (sys_exit c : Script A).
Proof. by intros w w' o [= <- <-]. Qed.

Lemma keeps_dirs_throw e : keeps_dirs (throw e : Script A).
Proof. by intros w w' o [= <- <-]. Qed.

Lemma keeps_dirs_lift (r : result A) : keeps_dirs (lift r).
Proof. destruct r; [apply keeps_dirs_ret | apply keeps_dirs_throw]. Qed.

Lemma writes_only_ret p (a : A) : writes_only p (mret a : Script A).
Proof. by intros w w' o [= <- <-]. Qed.

Lemma writes_only_bind p (m : Script A) (f : A → Script B) :
  writes_only p m → (∀ a, writes_only p (f a)) → writes_only p (m ≫= f).
Proof.
  intros Hm Hf w w' o. rewrite bind_run.
  destruct (m w) as [w1 [a|c|e]] eqn:E; specialize (Hm _ _ _ E).
  - intros H q Hq. apply Hf in H. by rewrite H, Hm.
  - by intros [= <- <-].
  - by intros [= <- <-].
Qed.

Lemma writes_only_try p (m : Script A) (h : exn → Script A) :
  writes_only p m → (∀ e, writes_only p (h e)) →
  writes_only p (try_except m h).
Proof.
  intros Hm Hh w w' o. unfold try_except.
  destruct (m w) as [w1 [a|c|e]] eqn:E; specialize (Hm _ _ _ E).
  - by intros [= <- <-].
  - by intros [= <- <-].
  - intros H q Hq. apply Hh in H. by rewrite H, Hm.
Qed.

Lemma writes_only_exit p c : writes_only p (sys_exit c : Script A).
Proof. by intros w w' o [= <- <-]. Qed.

Lemma writes_only_throw p e : writes_only p (throw e : Script A).
Proof. by intros w w' o [= <- <-]. Qed.

Lemma writes_only_lift p (r : result A) : writes_only p (lift r).
Proof. destruct r; [apply writes_only_ret | apply writes_only_throw]. Qed.

Lemma no_exit_ret (a : A) : no_exit (mret a : Script A).
Proof. by intros w w' c. Qed.

Lemma no_exit_throw e : no_exit (throw e : Script A).
Proof. by intros w w' c. Qed.

Lemma no_exit_lift (r : result A) : no_exit (lift r).
Proof. destruct r; [apply no_exit_ret | apply no_exit_throw]. Qed.

Lemma no_exit_bind (m : Script A) (f : A → Script B) :
  no_exit m → (∀ a, no_exit (f a)) → no_exit (m ≫= f).
Proof.
  intros Hm Hf w w' c. rewrite bind_run.
  destruct (m w) as [w1 [a|c1|e]] eqn:E; [apply Hf| |done].
  by apply Hm in E.
Qed.
End frames.

Lemma no_exit_logging l msg : no_exit (logging l msg).
Proof. by intros w w' c. Qed.

Lemma no_exit_print s : no_exit (print s).
Proof. by intros w w' c. Qed.

Lemma no_exit_show c : no_exit (show c).
Proof. by intros w w' c'. Qed.

Lemma no_exit_write_file fault p a : no_exit (write_file fault p a).
Proof.
  intros w w' c. unfold write_file. destruct fault; repeat case_decide; done.
Qed.

Lemma no_exit_plt env c : no_exit (plt env c).
Proof.
  unfold plt. destruct (env_plt env c);
    [apply no_exit_throw | apply no_exit_ret].
Qed.

Lemma keeps_dirs_logging l msg : keeps_dirs (logging l msg).
Proof. by intros w w' o [= <- <-]. Qed.

Lemma keeps_dirs_basicConfig f : keeps_dirs (basicConfig f).
Proof. by intros w w' o [= <- <-]. Qed.

Lemma keeps_dirs_print s : keeps_dirs (print s).
Proof. by intros w w' o [= <- <-]. Qed.

Lemma keeps_dirs_print_table s : keeps_dirs (print_table s).
Proof. by intros w w' o [= <- <-]. Qed.

Lemma keeps_dirs_show c : keeps_dirs (show c).
Proof. by intros w w' o [= <- <-]. Qed.

Lemma keeps_dirs_mkdir p : keeps_dirs (mkdir p).
Proof.
  intros w w' o. unfold mkdir. case_decide; intros [= <- <-]; [done|].
  simpl. apply union_subseteq_l.
Qed.

Lemma keeps_dirs_write_file fault p a : keeps_dirs (write_file fault p a).
Proof.
  intros w w' o. unfold write_file.
  destruct fault; repeat case_decide; by intros [= <- <-].
Qed.

Lemma keeps_dirs_plt env c : keeps_dirs (plt env c).
Proof.
  unfold plt. destruct (env_plt env c);
    [apply keeps_dirs_throw | apply keeps_dirs_ret].
Qed.

Lemma keeps_dirs_for_each {A} (l : list A) (body : A → Script unit) :
  (∀ x, keeps_dirs (body x)) → keeps_dirs (for_each l body).
Proof.
  intros H. induction l as [|x l IH]; simpl; [apply keeps_dirs_ret|].
  apply keeps_dirs_bind; [apply H | by intros _].
Qed.

Lemma writes_only_logging p l msg : writes_only p (logging l msg).
Proof. by intros w w' o [= <- <-]. Qed.

Lemma writes_only_print p s : writes_only p (print s).
Proof. by intros w w' o [= <- <-]. Qed.

Lemma writes_only_show p c : writes_only p (show c).
Proof. by intros w w' o [= <- <-]. Qed.

Lemma writes_only_write_file fault p a : writes_only p (write_file fault p a).
Proof.
  intros w w' o. unfold write_file.
  destruct fault; repeat case_decide; intros [= <- <-]; try done.
  intros q Hq. simpl. by rewrite lookup_insert_ne.
Qed.

Lemma writes_only_plt env p c : writes_only p (plt env c).
Proof.
  unfold plt. destruct (env_plt env c);
    [apply writes_only_throw | apply writes_only_ret].
Qed.

Create HintDb frames.
#[export] Hint Resolve keeps_dirs_ret keeps_dirs_exit keeps_dirs_throw
  keeps_dirs_lift keeps_dirs_logging keeps_dirs_basicConfig keeps_dirs_print
  keeps_dirs_print_table
  keeps_dirs_show keeps_dirs_mkdir keeps_dirs_write_file keeps_dirs_plt
  writes_only_ret writes_only_exit writes_only_throw writes_only_lift
  writes_only_logging writes_only_print writes_only_show
  writes_only_write_file writes_only_plt
  no_exit_ret no_exit_throw no_exit_lift no_exit_logging no_exit_print
  no_exit_show no_exit_write_file no_exit_plt : frames.

(** Takes a sequence of calls apart, down to the calls themselves. *)
Ltac frames :=
  repeat first
    [ apply keeps_dirs_bind | apply keeps_dirs_try | apply keeps_dirs_for_each
    | apply writes_only_bind | apply writes_only_try
    | apply no_exit_bind
    | progress intros
    | match goal with |- context [match ?x with _ => _ end] => destruct x end
    | solve [auto with frames] ].

(** ** The stages of the script *)

Lemma keeps_dirs_load_config env : keeps_dirs (load_config env).
Proof. unfold load_config. frames. Qed.

Lemma keeps_dirs_load_data env f d : keeps_dirs (load_data env f d).
Proof. unfold load_data. frames. Qed.

Lemma keeps_dirs_validate df : keeps_dirs (validate df).
Proof. unfold validate. frames. Qed.

Lemma keeps_dirs_report env dir df : keeps_dirs (report env dir df).
Proof. unfold report, report_body. frames. Qed.

Lemma keeps_dirs_plot env dir d t x y today df :
  keeps_dirs (plot env dir d t x y today df).
Proof. unfold plot, plot_body. frames. Qed.

Lemma writes_only_plot_body env dir d t x y today df :
  writes_only (plot_file dir today) (plot_body env dir d t x y today df).
Proof. unfold plot_body, plot_file. frames. Qed.

Lemma writes_only_plot env dir d t x y today df :
  writes_only (plot_file dir today) (plot env dir d t x y today df).
Proof.
  unfold plot. apply writes_only_try; [apply writes_only_plot_body|].
  intros e. apply writes_only_logging.
Qed.

Lemma no_exit_plot_body env dir d t x y today df :
  no_exit (plot_body env dir d t x y today df).
Proof. unfold plot_body. frames. Qed.

(** The last [try] never ends the process: its handler catches every
    exception and does not exit. *)
Lemma plot_returns env dir d t x y today df w :
  ∃ w', plot env dir d t x y today df w = (w', Return tt).
Proof.
  unfold plot, try_except.
  destruct (plot_body env dir d t x y today df w) as [w1 [[]|c|e]] eqn:E.
  - eauto.
  - exfalso. revert E. apply no_exit_plot_body.
  - unfold logging. eauto.
Qed.

Lemma config_loaded env config w :
  env_config env = Ok config → load_config env w = (w, Return config).
Proof. intros H. unfold load_config. unfold_script. by rewrite H. Qed.

Lemma config_not_loaded env e w :
  env_config env = Raised e →
  ∃ w' o, load_config env w = (w', o) ∧ dirs w' = dirs w ∧
          (∀ a, o ≠ Return a).
Proof.
  intros H. unfold load_config. unfold_script. rewrite H.
  destruct (exn_kind_of e); simpl; eauto 10.
Qed.

(** [main] is [upto_report] followed by the last [try]. *)
Lemma main_split env w :
  main env w =
  match upto_report env w with
  | (w5, Return (config, df, today)) =>
      plot env (config_get config "output_dir" "outputs")
        (config_get config "date_column" "date")
        (config_get config "plot_title" "Daily Revenue Trend")
        (config_get config "plot_xlabel" "Date")
        (config_get config "plot_ylabel" "Revenue") today df w5
  | (w5, Exit c) => (w5, Exit c)
  | (w5, Throw e) => (w5, Throw e)
  end.
Proof.
  unfold main, upto_report. rewrite !bind_run.
  destruct (load_config env w) as [w1 [config|c|e]]; [|done..].
  rewrite !bind_run.
  destruct (mkdir _ w1) as [w1' [[]|c|e]]; [|done..].
  unfold basicConfig, logging. rewrite !bind_run. simpl. rewrite ?bind_run.
  destruct (load_data _ _ _ _) as [w2 [df|c|e]]; [|done..].
  rewrite !bind_run.
  destruct (validate _ _) as [w3 [[]|c|e]]; [|done..].
  rewrite !bind_run.
  destruct (report _ _ _ _) as [w4 [[df' today]|c|e]]; done.
Qed.

(** What a successful [report] leaves behind. *)
Lemma report_returns env dir df w w' df' today :
  report env dir df w = (w', Return (df', today)) →
  today = env_today env ∧
  ∃ m, aggregate df = Ok (df', m) ∧
       files w' !! summary_file dir today = Some (SummaryCsv (summary m)).
Proof.
  unfold report, try_except.
  destruct (report_body env dir df w) as [w1 [[d t]|c|e]] eqn:E;
    [|by intros [= <- <-]|unfold_script; by intros [=]].
  intros [= <- <- <-]. revert E. unfold report_body. rewrite bind_run.
  destruct (aggregate df) as [[df1 m]|e] eqn:Hagg; simpl; [|done].
  unfold write_file. unfold_script. simpl.
  destruct (env_to_csv env); [done|].
  repeat case_decide; try done. intros [= <- <- <-]. split; [done|].
  exists m. split; [done|]. simpl. apply lookup_insert_eq.
Qed.

Lemma upto_report_returns env w w5 config df today :
  upto_report env w = (w5, Return (config, df, today)) →
  env_config env = Ok config ∧ today = env_today env ∧
  ∃ df0 m,
    env_read_csv env (config_get config "data_file" "sales_data.csv")
      (config_get config "date_column" "date") = Ok df0 ∧
    validated df0 ∧
    aggregate df0 = Ok (df, m) ∧
    files w5 !! summary_file (config_get config "output_dir" "outputs") today
      = Some (SummaryCsv (summary m)).
Proof.
  unfold upto_report. rewrite bind_run.
  destruct (load_config env w) as [w1 [cfg|c|e]] eqn:Hcfg; [|done..].
  rewrite !bind_run.
  destruct (mkdir _ w1) as [w1' [[]|c|e]]; [|done..].
  unfold basicConfig, logging. rewrite !bind_run. simpl. rewrite ?bind_run.
  destruct (load_data _ _ _ _) as [w2 [df0|c|e]] eqn:Hload; [|done..].
  rewrite !bind_run.
  destruct (validate _ _) as [w3 [[]|c|e]] eqn:Hval; [|done..].
  rewrite !bind_run.
  destruct (report _ _ _ _) as [w4 [[df' t]|c|e]] eqn:Hrep; [|done..].
  intros [= <- <- <- <-].
  destruct (report_returns _ _ _ _ _ _ _ Hrep) as (-> & m & Hagg & Hfile).
  split_and!.
  - revert Hcfg. unfold load_config. unfold_script.
    destruct (env_config env) as [c0|e0]; [by intros [= <- <-]|].
    destruct (exn_kind_of e0); by intros [=].
  - done.
  - exists df0, m. split_and!; [| |done..].
    + revert Hload. unfold load_data. unfold_script.
      destruct (env_read_csv env _ _) as [d|e0]; [by intros [= <- <-]|].
      destruct (exn_kind_of e0); by intros [=].
    + revert Hval. unfold validate, required_columns. simpl.
      unfold_script. unfold validated. repeat case_decide; by intros [=].
Qed.

#[export] Hint Resolve keeps_dirs_load_config keeps_dirs_load_data
  keeps_dirs_validate keeps_dirs_report keeps_dirs_plot : frames.

Lemma take_in_prefixes (p : path) n : take n p ∈ prefixes p.
Proof.
  unfold prefixes. apply list_elem_of_fmap.
  exists (n `min` length p)%nat. split.
  - destruct (decide (n ≤ length p)%nat) as [Hle|Hgt].
    + by rewrite Nat.min_l.
    + rewrite Nat.min_r, !take_ge by lia. done.
  - apply elem_of_seq. lia.
Qed.

Lemma summary_file_not_plot_file dir today :
  summary_file dir today ≠ plot_file dir today.
Proof.
  unfold summary_file, plot_file, truediv. intros H.
  apply app_inj_tail in H as [_ H]. discriminate H.
Qed.

Lemma mkdir_creatable p w :
  creatable p w → mkdir p w = (with_dir p w, Return tt).
Proof.
  intros H. unfold mkdir. rewrite decide_False; [done|].
  intros Hex. apply Exists_exists in Hex as (q & Hq & [a Ha]).
  unfold creatable in H. rewrite Forall_forall in H.
  rewrite (H q Hq) in Ha. done.
Qed.


(** ** The pipeline *)





(** Without a configuration the run ends before the directory is created. *)
Lemma no_output_dir_without_config env e w :
  env_config env = Raised e →
  dirs (run env w).1 = dirs w ∧ (run env w).2 = 1%Z.
Proof.
  intros H. unfold run, main. rewrite bind_run. unfold load_config.
  unfold_script. rewrite H. destruct (exn_kind_of e); done.
Qed.

(** C4: when the loaded table lacks the revenue or the cost column, the run
    logs the first missing one by name and exits with status 1 right after
    the load: nothing is printed and no file is written. *)
Theorem missing_column_is_fatal env config df w :
  env_config env = Ok config →
  creatable (Path (config_get config "output_dir" "outputs")) w →
  env_read_csv env (config_get config "data_file" "sales_data.csv")
    (config_get config "date_column" "date") = Ok df →
  ¬ validated df →
  let col := if decide ("revenue" ∈ columns df) then "cost" else "revenue" in
  (col ∈ required_columns) ∧ (col ∉ columns df) ∧
  run env w =
    (logged ERROR ("Missing required column: " +:+ col)
       (logged INFO ("Loaded data from "
                     +:+ config_get config "data_file" "sales_data.csv"
                     +:+ " successfully.")
          (logged INFO "Script started"
             (with_log_file (config_get config "log_file" "sales_analysis.log")
                (with_dir (Path (config_get config "output_dir" "outputs"))
                   w)))),
     1%Z) ∧
  files (run env w).1 = files w ∧
  console (run env w).1 = console w.
Proof.
  intros Hcfg Hcr Hload Hnv col.
  assert (Hrun : run env w =
    (logged ERROR ("Missing required column: " +:+ col)
       (logged INFO ("Loaded data from "
                     +:+ config_get config "data_file" "sales_data.csv"
                     +:+ " successfully.")
          (logged INFO "Script started"
             (with_log_file (config_get config "log_file" "sales_analysis.log")
                (with_dir (Path (config_get config "output_dir" "outputs"))
                   w)))),
     1%Z)).
  { unfold run, main. rewrite bind_run, (config_loaded _ _ _ Hcfg).
    rewrite bind_run, (mkdir_creatable _ _ Hcr).
    unfold load_data, validate, required_columns. unfold_script.
    rewrite Hload. simpl. subst col. unfold validated in Hnv.
    repeat case_decide; try done. tauto. }
  split_and!.
  - subst col. unfold required_columns. case_decide; in_list.
  - subst col. unfold validated in Hnv. case_decide; tauto.
  - done.
  - by rewrite Hrun.
  - by rewrite Hrun.
Qed.

Lemma missing_column_is_fatal_witness :
  env_config (env_with (Ok table_without_cost) no_fault) = Ok ∅ ∧
  creatable (Path (config_get ∅ "output_dir" "outputs")) world_empty ∧
  ¬ validated table_without_cost ∧
  (run (env_with (Ok table_without_cost) no_fault) world_empty).2 = 1%Z ∧
  files (run (env_with (Ok table_without_cost) no_fault) world_empty).1 = ∅.
Proof.
  assert (Hcr : creatable (Path (config_get ∅ "output_dir" "outputs"))
                  world_empty).
  { repeat constructor. }
  assert (Hnv : ¬ validated table_without_cost).
  { intros [_ Hc]. simpl in Hc.
    repeat (apply elem_of_cons in Hc as [Hc|Hc]; [discriminate Hc|]).
    by apply elem_of_nil in Hc. }
  split; [reflexivity|]. split; [exact Hcr|]. split; [exact Hnv|].
  destruct (missing_column_is_fatal (env_with (Ok table_without_cost) no_fault)
              ∅ table_without_cost world_empty eq_refl Hcr eq_refl Hnv)
    as (_ & _ & Hrun & Hfiles & _).
  split; [|exact Hfiles]. rewrite Hrun. reflexivity.
Defined.

(** C5: when the run has reached the last [try] and its body raises an
    error, the run logs the error and ends with status 0, and the summary
    file that the report wrote is still there, unchanged. *)
Theorem plot_failure_is_isolated env w w5 w6 config df today e :
  let OUTPUT_DIR := config_get config "output_dir" "outputs" in
  upto_report env w = (w5, Return (config, df, today)) →
  plot_body env OUTPUT_DIR
    (config_get config "date_column" "date")
    (config_get config "plot_title" "Daily Revenue Trend")
    (config_get config "plot_xlabel" "Date")
    (config_get config "plot_ylabel" "Revenue") today df w5
    = (w6, Throw e) →
  run env w
    = (logged ERROR ("Error plotting daily revenue: " +:+ exn_msg e) w6,
       0%Z) ∧
  (∃ m, files w5 !! summary_file OUTPUT_DIR today
        = Some (SummaryCsv (summary m))) ∧
  files (run env w).1 !! summary_file OUTPUT_DIR today
    = files w5 !! summary_file OUTPUT_DIR today.
Proof.
  intros OUTPUT_DIR Hup Hbody.
  assert (Hrun : run env w
    = (logged ERROR ("Error plotting daily revenue: " +:+ exn_msg e) w6,
       0%Z)).
  { unfold run. rewrite main_split, Hup. unfold plot, try_except.
    fold OUTPUT_DIR. by rewrite Hbody. }
  split_and!.
  - done.
  - destruct (upto_report_returns _ _ _ _ _ _ Hup)
      as (_ & _ & df0 & m & _ & _ & _ & Hfile). eauto.
  - rewrite Hrun. simpl.
    apply (writes_only_plot_body _ _ _ _ _ _ _ _ _ _ _ Hbody).
    apply summary_file_not_plot_file.
Qed.

Lemma plot_failure_is_isolated_witness :
  ∃ w5 w6 config df today e,
    upto_report (env_with (Ok (scenario_A 1 2)) grid_fault) world_empty
      = (w5, Return (config, df, today)) ∧
    plot_body (env_with (Ok (scenario_A 1 2)) grid_fault)
      (config_get config "output_dir" "outputs")
      (config_get config "date_column" "date")
      (config_get config "plot_title" "Daily Revenue Trend")
      (config_get config "plot_xlabel" "Date")
      (config_get config "plot_ylabel" "Revenue") today df w5
      = (w6, Throw e) ∧
    (run (env_with (Ok (scenario_A 1 2)) grid_fault) world_empty).2 = 0%Z.
Proof.
  destruct (upto_report (env_with (Ok (scenario_A 1 2)) grid_fault)
              world_empty) as [w5 [[[config df] today]|c|e]] eqn:H1;
    [|vm_compute in H1; discriminate H1..].
  assert (Hc : config = ∅ ∧ today = "20240131").
  { vm_compute in H1. injection H1 as _ Hc _ Ht. by rewrite <-Hc, <-Ht. }
  destruct Hc as [-> ->].
  destruct (plot_body (env_with (Ok (scenario_A 1 2)) grid_fault)
              (config_get ∅ "output_dir" "outputs")
              (config_get ∅ "date_column" "date")
              (config_get ∅ "plot_title" "Daily Revenue Trend")
              (config_get ∅ "plot_xlabel" "Date")
              (config_get ∅ "plot_ylabel" "Revenue") "20240131" df w5)
    as [w6 [[]|c|e]] eqn:H2.
  - exfalso. vm_compute in H1. injection H1 as <- <-.
    vm_compute in H2. discriminate H2.
  - exfalso. vm_compute in H1. injection H1 as <- <-.
    vm_compute in H2. discriminate H2.
  - exists w5, w6, ∅, df, "20240131", e.
    split; [reflexivity|]. split; [exact H2|].
    rewrite (proj1 (plot_failure_is_isolated _ _ _ _ _ _ _ _ H1 H2)).
    reflexivity.
Defined.

(** A full run on scenario A without faults: status 0, and both artifacts
    are in the output directory. *)
Example scenario_A_run :
  (run (env_with (Ok (scenario_A 1 2)) no_fault) world_empty).2 = 0%Z ∧
  is_Some (files (run (env_with (Ok (scenario_A 1 2)) no_fault) world_empty).1
             !! summary_file "outputs" "20240131") ∧
  is_Some (files (run (env_with (Ok (scenario_A 1 2)) no_fault) world_empty).1
             !! plot_file "outputs" "20240131").
Proof. split_and!; [reflexivity| |]; vm_compute; eauto. Qed.


(** * Further properties of the pipeline *)

(** ** Loading the configuration (lines 16 to 31) *)

(** X1: when the configuration cannot be loaded, the run ends with status 1
    before anything else happens: no directory, no file, no log line.  A
    missing file and malformed JSON are reported on the console, each with
    its own message; any other error is not caught and prints nothing. *)
Theorem config_failure_is_fatal env e w :
  env_config env = Raised e →
  run env w =
    (match exn_kind_of e with
     | FileNotFoundError =>
         printed "Configuration file 'config.json' not found." w
     | JSONDecodeError =>
         printed ("Error parsing config file: " +:+ exn_msg e) w
     | _ => w
     end, 1%Z).
Proof.
  intros H. unfold run, main. rewrite bind_run. unfold load_config.
  unfold_script. rewrite H. destruct (exn_kind_of e); reflexivity.
Qed.

Lemma config_failure_is_fatal_witness :
  env_config (env_without_config (Exn JSONDecodeError "Expecting value"))
    = Raised (Exn JSONDecodeError "Expecting value") ∧
  run (env_without_config (Exn JSONDecodeError "Expecting value")) world_empty
    = (printed "Error parsing config file: Expecting value" world_empty, 1%Z).
Proof.
  split; [reflexivity|].
  exact (config_failure_is_fatal
           (env_without_config (Exn JSONDecodeError "Expecting value"))
           (Exn JSONDecodeError "Expecting value") world_empty eq_refl).
Defined.

(** X2: the run reads the configuration through the seven recognized keys
    only: two configurations that agree on them give the same run, whatever
    other keys they hold. *)
Theorem unknown_config_keys_ignored c1 c2 read_csv today to_csv plt w :
  (∀ k, k ∈ recognized_keys → c1 !! k = c2 !! k) →
  run (mkEnv (Ok c1) read_csv today to_csv plt) w
  = run (mkEnv (Ok c2) read_csv today to_csv plt) w.
Proof.
  intros H.
  assert (Hget : ∀ k d, k ∈ recognized_keys →
                        config_get c1 k d = config_get c2 k d).
  { intros k d Hk. unfold config_get. by rewrite (H k Hk). }
  unfold run, main. rewrite !bind_run.
  rewrite (config_loaded _ c1), (config_loaded _ c2) by reflexivity.
  rewrite !(Hget "data_file"), !(Hget "date_column"), !(Hget "log_file"),
    !(Hget "plot_title"), !(Hget "plot_xlabel"), !(Hget "plot_ylabel"),
    !(Hget "output_dir") by (unfold recognized_keys; in_list).
  reflexivity.
Qed.

Lemma unknown_config_keys_ignored_witness :
  run (mkEnv (Ok {[ "theme" := "dark" ]}) (λ _ _, Ok (scenario_A 1 2))
         "20240131" None no_fault) world_empty
  = run (mkEnv (Ok ∅) (λ _ _, Ok (scenario_A 1 2)) "20240131" None no_fault)
      world_empty.
Proof.
  apply (unknown_config_keys_ignored {[ "theme" := "dark" ]} ∅).
  intros k Hk. unfold recognized_keys in Hk.
  repeat (apply elem_of_cons in Hk as [->|Hk]; [reflexivity|]).
  by apply elem_of_nil in Hk.
Defined.

(** ** Loading the data (lines 40 to 51) *)

Lemma run_after_load env config df w :
  env_config env = Ok config →
  creatable (Path (config_get config "output_dir" "outputs")) w →
  env_read_csv env (config_get config "data_file" "sales_data.csv")
    (config_get config "date_column" "date") = Ok df →
  main env w =
    (validate df;;
     '(df, today) ← report env (config_get config "output_dir" "outputs") df;
     plot env (config_get config "output_dir" "outputs")
       (config_get config "date_column" "date")
       (config_get config "plot_title" "Daily Revenue Trend")
       (config_get config "plot_xlabel" "Date")
       (config_get config "plot_ylabel" "Revenue") today df)
      (after_load config w).
Proof.
  intros Hcfg Hcr Hload. unfold main.
  rewrite bind_run, (config_loaded _ _ _ Hcfg).
  rewrite bind_run, (mkdir_creatable _ _ Hcr).
  unfold load_data. unfold_script. rewrite Hload. reflexivity.
Qed.

Lemma validate_passes df w : validated df → validate df w = (w, Return tt).
Proof.
  intros [Hr Hc]. unfold validate, required_columns. simpl. unfold_script.
  by rewrite !decide_True.
Qed.

(** X3: when the data cannot be loaded, the run logs one error line, whose
    text depends on the kind of the error (file not found, parse error,
    anything else), and ends with status 1; the output directory is there,
    nothing is printed and no file is written. *)
Theorem data_load_failure_is_fatal env config e w :
  env_config env = Ok config →
  creatable (Path (config_get config "output_dir" "outputs")) w →
  env_read_csv env (config_get config "data_file" "sales_data.csv")
    (config_get config "date_column" "date") = Raised e →
  run env w =
    (logged ERROR
       (match exn_kind_of e with
        | FileNotFoundError =>
            "Data file '" +:+ config_get config "data_file" "sales_data.csv"
            +:+ "' not found."
        | ParserError => "Error parsing CSV file: " +:+ exn_msg e
        | _ => "Unexpected error loading data: " +:+ exn_msg e
        end)
       (after_setup config w),
     1%Z).
Proof.
  intros Hcfg Hcr Hload. unfold run, main.
  rewrite bind_run, (config_loaded _ _ _ Hcfg).
  rewrite bind_run, (mkdir_creatable _ _ Hcr).
  unfold load_data. unfold_script. rewrite Hload.
  destruct (exn_kind_of e); reflexivity.
Qed.

Lemma data_load_failure_is_fatal_witness :
  creatable (Path (config_get ∅ "output_dir" "outputs")) world_empty ∧
  run (env_with (Raised (Exn ParserError "Error tokenizing data")) no_fault)
    world_empty
  = (logged ERROR "Error parsing CSV file: Error tokenizing data"
       (after_setup ∅ world_empty), 1%Z).
Proof.
  assert (Hcr : creatable (Path (config_get ∅ "output_dir" "outputs"))
                  world_empty).
  { repeat constructor. }
  split; [exact Hcr|].
  exact (data_load_failure_is_fatal
           (env_with (Raised (Exn ParserError "Error tokenizing data"))
              no_fault)
           ∅ (Exn ParserError "Error tokenizing data") world_empty
           eq_refl Hcr eq_refl).
Defined.

(** ** Reporting (lines 57 to 87) *)



(** X5: when the metrics are computed but the summary file cannot be
    written, the summary has already been printed and the log already says
    that it was; the run then logs the error and ends with status 1, and no
    file is written. *)
Theorem summary_write_failure_is_fatal env config df df' m e w :
  env_config env = Ok config →
  creatable (Path (config_get config "output_dir" "outputs")) w →
  env_read_csv env (config_get config "data_file" "sales_data.csv")
    (config_get config "date_column" "date") = Ok df →
  validated df →
  aggregate df = Ok (df', m) →
  env_to_csv env = Some e →
  run env w =
    (logged ERROR ("Error calculating metrics: " +:+ exn_msg e)
       (logged INFO "Metrics calculated and summary printed successfully."
          (printed_table (summary m)
             (printed (nl +:+ "=== BUSINESS PERFORMANCE SUMMARY ===" +:+ nl)
                (after_load config w)))),
     1%Z).
Proof.
  intros Hcfg Hcr Hload Hv Hagg Hcsv. unfold run.
  rewrite (run_after_load _ _ _ _ Hcfg Hcr Hload).
  rewrite bind_run, (validate_passes _ _ Hv). rewrite bind_run.
  unfold report, report_body, write_file. unfold_script.
  rewrite Hagg. simpl. rewrite Hcsv. reflexivity.
Qed.

Lemma summary_write_failure_is_fatal_witness :
  ∃ df' m,
    aggregate (scenario_A 1 2) = Ok (df', m) ∧
    (run (mkEnv (Ok ∅) (λ _ _, Ok (scenario_A 1 2)) "20240131"
            (Some (Exn OSError "No space left on device")) no_fault)
       world_empty).2 = 1%Z.
Proof.
  assert (Hv : validated (scenario_A 1 2)) by (split; in_list).
  assert (Hcr : creatable (Path (config_get ∅ "output_dir" "outputs"))
                  world_empty).
  { repeat constructor. }
  destruct (aggregate (scenario_A 1 2)) as [[df' m]|e] eqn:Hagg;
    [|vm_compute in Hagg; discriminate Hagg].
  exists df', m. split; [reflexivity|].
  rewrite (summary_write_failure_is_fatal
             (mkEnv (Ok ∅) (λ _ _, Ok (scenario_A 1 2)) "20240131"
                (Some (Exn OSError "No space left on device")) no_fault)
             ∅ (scenario_A 1 2) df' m
             (Exn OSError "No space left on device") world_empty
             eq_refl Hcr eq_refl Hv Hagg eq_refl).
  reflexivity.
Defined.

(** ** A run without faults (lines 16 to 101) *)

Lemma parent_truediv (p : path) name : parent (truediv p name) = p.
Proof.
  unfold parent, truediv. rewrite length_app. simpl.
  replace (length p + 1 - 1)%nat with (length p) by lia.
  by rewrite take_app_length.
Qed.


Lemma self_in_prefixes (p : path) : p ∈ prefixes p.
Proof.
  rewrite <-(take_ge p (length p)) at 1 by lia. apply take_in_prefixes.
Qed.

Lemma write_file_ok p a w :
  parent p ∈ dirs w → p ∉ dirs w →
  write_file None p a w = (written p a w, Return tt).
Proof.
  intros Hp Hn. unfold write_file. by rewrite decide_True, decide_False.
Qed.

Lemma in_dirs_with_dir (p q : path) w :
  q ∈ dirs (with_dir p w) ↔ q ∈ dirs w ∨ q ∈ prefixes p.
Proof.
  unfold with_dir. cbn [dirs]. rewrite elem_of_union.
  split.
  - intros [?|H]; [by left|right]. by apply elem_of_list_to_set in H.
  - intros [?|H]; [by left|right]. by apply elem_of_list_to_set.
Qed.





Lemma lift_Ok {A} (a : A) w : lift (Ok a) w = (w, Return a).
Proof. reflexivity. Qed.

Lemma lift_Raised {A} e w : lift (Raised e : result A) w = (w, Throw e).
Proof. reflexivity. Qed.

Lemma plt_ok env c w : env_plt env c = None → plt env c w = (w, Return tt).
Proof. intros H. unfold plt. by rewrite H. Qed.

Lemma plt_fault env c e w :
  env_plt env c = Some e → plt env c w = (w, Throw e).
Proof. intros H. unfold plt. by rewrite H. Qed.






(** ** What every run does and never does *)

Section more_frames.
Context {A B : Type}.

Lemma appends_only_ret (a : A) : appends_only (mret a : Script A).
Proof. by intros w w' o [= <- <-]. Qed.

Lemma appends_only_exit c : appends_only (sys_exit c : Script A).
Proof. by intros w w' o [= <- <-]. Qed.

Lemma appends_only_throw e : appends_only (throw e : Script A).
Proof. by intros w w' o [= <- <-]. Qed.

Lemma appends_only_lift (r : result A) : appends_only (lift r).
Proof. destruct r; [apply appends_only_ret | apply appends_only_throw]. Qed.

Lemma appends_only_bind (m : Script A) (f : A → Script B) :
  appends_only m → (∀ a, appends_only (f a)) → appends_only (m ≫= f).
Proof.
  intros Hm Hf w w' o. rewrite bind_run.
  destruct (m w) as [w1 [a|c|e]] eqn:E; destruct (Hm _ _ _ E) as [Hl Hc].
  - intros H. destruct (Hf _ _ _ _ H). split; by etrans.
  - by intros [= <- <-].
  - by intros [= <- <-].
Qed.

Lemma appends_only_try (m : Script A) (h : exn → Script A) :
  appends_only m → (∀ e, appends_only (h e)) →
  appends_only (try_except m h).
Proof.
  intros Hm Hh w w' o. unfold try_except.
  destruct (m w) as [w1 [a|c|e]] eqn:E; destruct (Hm _ _ _ E) as [Hl Hc].
  - by intros [= <- <-].
  - by intros [= <- <-].
  - intros H. destruct (Hh _ _ _ _ H). split; by etrans.
Qed.

Lemma exits_with_1_ret (a : A) : exits_with_1 (mret a : Script A).
Proof. by intros w w' c. Qed.

Lemma exits_with_1_exit : exits_with_1 (sys_exit 1 : Script A).
Proof. by intros w w' c [= _ <-]. Qed.

Lemma exits_with_1_throw e : exits_with_1 (throw e : Script A).
Proof. by intros w w' c. Qed.

Lemma exits_with_1_lift (r : result A) : exits_with_1 (lift r).
Proof. destruct r; [apply exits_with_1_ret | apply exits_with_1_throw]. Qed.

Lemma exits_with_1_bind (m : Script A) (f : A → Script B) :
  exits_with_1 m → (∀ a, exits_with_1 (f a)) → exits_with_1 (m ≫= f).
Proof.
  intros Hm Hf w w' c. rewrite bind_run.
  destruct (m w) as [w1 [a|c1|e]] eqn:E; [apply Hf| |done].
  intros [= <- <-]. by eapply Hm.
Qed.

Lemma exits_with_1_try (m : Script A) (h : exn → Script A) :
  exits_with_1 m → (∀ e, exits_with_1 (h e)) →
  exits_with_1 (try_except m h).
Proof.
  intros Hm Hh w w' c. unfold try_except.
  destruct (m w) as [w1 [a|c1|e]] eqn:E; [done| |apply Hh].
  intros [= <- <-]. by eapply Hm.
Qed.
End more_frames.

Lemma appends_only_print s : appends_only (print s).
Proof.
  intros w w' o [= <- <-]. simpl. split; [done|]. by apply prefix_app_r.
Qed.

Lemma appends_only_print_table s : appends_only (print_table s).
Proof.
  intros w w' o [= <- <-]. simpl. split; [done|]. by apply prefix_app_r.
Qed.

Lemma appends_only_logging l msg : appends_only (logging l msg).
Proof.
  intros w w' o [= <- <-]. simpl. split; [|done]. by apply prefix_app_r.
Qed.

Lemma appends_only_basicConfig f : appends_only (basicConfig f).
Proof. by intros w w' o [= <- <-]. Qed.

Lemma appends_only_show c : appends_only (show c).
Proof. by intros w w' o [= <- <-]. Qed.

Lemma appends_only_mkdir p : appends_only (mkdir p).
Proof. intros w w' o. unfold mkdir. by case_decide; intros [= <- <-]. Qed.

Lemma appends_only_write_file fault p a : appends_only (write_file fault p a).
Proof.
  intros w w' o. unfold write_file.
  destruct fault; repeat case_decide; by intros [= <- <-].
Qed.

Lemma appends_only_plt env c : appends_only (plt env c).
Proof.
  unfold plt. destruct (env_plt env c);
    [apply appends_only_throw | apply appends_only_ret].
Qed.

Lemma appends_only_for_each {A} (l : list A) (body : A → Script unit) :
  (∀ x, appends_only (body x)) → appends_only (for_each l body).
Proof.
  intros H. induction l as [|x l IH]; simpl; [apply appends_only_ret|].
  apply appends_only_bind; [apply H | by intros _].
Qed.

Lemma exits_with_1_print s : exits_with_1 (print s).
Proof. by intros w w' c. Qed.

Lemma exits_with_1_print_table s : exits_with_1 (print_table s).
Proof. by intros w w' c. Qed.

Lemma exits_with_1_logging l msg : exits_with_1 (logging l msg).
Proof. by intros w w' c. Qed.

Lemma exits_with_1_basicConfig f : exits_with_1 (basicConfig f).
Proof. by intros w w' c. Qed.

Lemma exits_with_1_mkdir p : exits_with_1 (mkdir p).
Proof. intros w w' c. unfold mkdir. by case_decide. Qed.

Lemma exits_with_1_write_file fault p a :
  exits_with_1 (write_file fault p a).
Proof.
  intros w w' c. unfold write_file. destruct fault; repeat case_decide; done.
Qed.

Lemma exits_with_1_for_each {A} (l : list A) (body : A → Script unit) :
  (∀ x, exits_with_1 (body x)) → exits_with_1 (for_each l body).
Proof.
  intros H. induction l as [|x l IH]; simpl; [apply exits_with_1_ret|].
  apply exits_with_1_bind; [apply H | by intros _].
Qed.

Lemma writes_only_mkdir q p : writes_only q (mkdir p).
Proof. intros w w' o. unfold mkdir. by case_decide; intros [= <- <-]. Qed.

Lemma writes_only_basicConfig q f : writes_only q (basicConfig f).
Proof. by intros w w' o [= <- <-]. Qed.

Lemma writes_only_print_table q s : writes_only q (print_table s).
Proof. by intros w w' o [= <- <-]. Qed.

Lemma writes_only_for_each {A} q (l : list A) (body : A → Script unit) :
  (∀ x, writes_only q (body x)) → writes_only q (for_each l body).
Proof.
  intros H. induction l as [|x l IH]; simpl; [apply writes_only_ret|].
  apply writes_only_bind; [apply H | by intros _].
Qed.

Create HintDb run_frames.
#[export] Hint Resolve appends_only_ret appends_only_exit appends_only_throw
  appends_only_lift appends_only_print appends_only_print_table
  appends_only_logging appends_only_basicConfig appends_only_show
  appends_only_mkdir appends_only_write_file appends_only_plt
  exits_with_1_ret exits_with_1_exit exits_with_1_throw exits_with_1_lift
  exits_with_1_print exits_with_1_print_table exits_with_1_logging
  exits_with_1_basicConfig exits_with_1_mkdir exits_with_1_write_file
  writes_only_ret writes_only_exit writes_only_throw writes_only_lift
  writes_only_logging writes_only_print writes_only_show
  writes_only_write_file writes_only_plt writes_only_mkdir
  writes_only_basicConfig writes_only_print_table : run_frames.

Ltac run_frames :=
  repeat first
    [ apply appends_only_bind | apply appends_only_try
    | apply appends_only_for_each
    | apply exits_with_1_bind | apply exits_with_1_try
    | apply exits_with_1_for_each
    | apply writes_only_bind | apply writes_only_try
    | apply writes_only_for_each
    | progress intros
    | match goal with |- context [match ?x with _ => _ end] => destruct x end
    | solve [auto with run_frames] ].

Lemma appends_only_main env : appends_only (main env).
Proof.
  unfold main, load_config, load_data, validate, report, report_body, plot,
    plot_body.
  run_frames.
Qed.

Lemma exits_with_1_upto_report env : exits_with_1 (upto_report env).
Proof.
  unfold upto_report, load_config, load_data, validate, report, report_body.
  run_frames.
Qed.

(** X7: the exit status of a run is 0 or 1, and a status 0 means that the
    configuration was loaded and that the summary file of the day is in the
    output directory, holding the summary of the metrics. *)
Theorem zero_status_means_summary_saved env w :
  ((run env w).2 = 0%Z ∨ (run env w).2 = 1%Z) ∧
  ((run env w).2 = 0%Z →
   ∃ config df df' m,
     env_config env = Ok config ∧
     env_read_csv env (config_get config "data_file" "sales_data.csv")
       (config_get config "date_column" "date") = Ok df ∧
     aggregate df = Ok (df', m) ∧
     files (run env w).1
       !! summary_file (config_get config "output_dir" "outputs")
            (env_today env)
     = Some (SummaryCsv (summary m))).
Proof.
  unfold run. rewrite main_split.
  destruct (upto_report env w) as [w5 [[[config df'] today]|c|e]] eqn:Hup.
  - destruct (plot_returns env (config_get config "output_dir" "outputs")
                (config_get config "date_column" "date")
                (config_get config "plot_title" "Daily Revenue Trend")
                (config_get config "plot_xlabel" "Date")
                (config_get config "plot_ylabel" "Revenue") today df' w5)
      as [w' Hplot].
    rewrite Hplot. split; [by left|]. intros _.
    destruct (upto_report_returns _ _ _ _ _ _ Hup)
      as (Hcfg & -> & df & m & Hload & _ & Hagg & Hfile).
    exists config, df, df', m. split_and!; [done..|].
    simpl. rewrite <-Hfile.
    apply (writes_only_plot _ _ _ _ _ _ _ _ _ _ _ Hplot).
    apply summary_file_not_plot_file.
  - apply exits_with_1_upto_report in Hup as ->. simpl. split; [by right|done].
  - simpl. split; [by right|done].
Qed.

Lemma zero_status_means_summary_saved_witness :
  (run (env_with (Ok (scenario_A 1 2)) grid_fault) world_empty).2 = 0%Z ∧
  ∃ m,
    files (run (env_with (Ok (scenario_A 1 2)) grid_fault) world_empty).1
      !! summary_file "outputs" "20240131" = Some (SummaryCsv (summary m)).
Proof.
  split; [reflexivity|].
  destruct (proj2 (zero_status_means_summary_saved
                     (env_with (Ok (scenario_A 1 2)) grid_fault) world_empty)
              eq_refl) as (config & df & df' & m & Hcfg & _ & _ & Hfile).
  injection Hcfg as <-. exists m. exact Hfile.
Defined.

Lemma writes_only_load_data env q f d : writes_only q (load_data env f d).
Proof. unfold load_data. run_frames. Qed.

Lemma writes_only_validate q df : writes_only q (validate df).
Proof. unfold validate. run_frames. Qed.

Lemma writes_only_report env OUT df :
  writes_only (summary_file OUT (env_today env)) (report env OUT df).
Proof. unfold report, report_body, summary_file. run_frames. Qed.

#[export] Hint Resolve writes_only_load_data writes_only_validate
  writes_only_report : run_frames.

(** X8: a run only adds: the log lines and the console items that were
    there stay, in front of the new ones, and no directory goes away; and it
    writes no file other than the summary file and the chart file of the
    day. *)
Theorem run_only_adds env w :
  log w `prefix_of` log (run env w).1 ∧
  console w `prefix_of` console (run env w).1 ∧
  dirs w ⊆ dirs (run env w).1 ∧
  (∀ q,
     (∀ config, env_config env = Ok config →
        q ≠ summary_file (config_get config "output_dir" "outputs")
              (env_today env) ∧
        q ≠ plot_file (config_get config "output_dir" "outputs")
              (env_today env)) →
     files (run env w).1 !! q = files w !! q).
Proof.
  assert (Hfst : (run env w).1 = (main env w).1).
  { unfold run. by destruct (main env w) as [w' [[]|c|e]]. }
  rewrite Hfst. split_and!.
  - destruct (main env w) as [w' o] eqn:Hmain.
    by destruct (appends_only_main env _ _ _ Hmain).
  - destruct (main env w) as [w' o] eqn:Hmain.
    by destruct (appends_only_main env _ _ _ Hmain).
  - destruct (main env w) as [w' o] eqn:Hmain.
    assert (Hk : keeps_dirs (main env)); [|by eapply Hk].
    unfold main. frames.
  - intros q Hq. rewrite main_split.
    destruct (env_config env) as [config|e] eqn:Hcfg.
    + destruct (Hq config eq_refl) as [Hs Hp].
      assert (Hup : ∀ w5 o, upto_report env w = (w5, o) →
                            files w5 !! q = files w !! q).
      { unfold upto_report. rewrite bind_run, (config_loaded _ _ _ Hcfg).
        intros w5 o Hrun.
        match type of Hrun with
        | (?m ≫= ?f) w = _ =>
            assert (Hw : writes_only
                           (summary_file
                              (config_get config "output_dir" "outputs")
                              (env_today env)) (m ≫= f)) by run_frames
        end.
        by apply (Hw _ _ _ Hrun). }
      destruct (upto_report env w) as [w5 [[[config' df] today]|c|e]] eqn:Hrun;
        [|by eapply Hup..].
      destruct (upto_report_returns _ _ _ _ _ _ Hrun) as (Hcfg' & -> & _).
      rewrite Hcfg in Hcfg'. injection Hcfg' as <-.
      destruct (plot_returns env (config_get config "output_dir" "outputs")
                  (config_get config "date_column" "date")
                  (config_get config "plot_title" "Daily Revenue Trend")
                  (config_get config "plot_xlabel" "Date")
                  (config_get config "plot_ylabel" "Revenue")
                  (env_today env) df w5) as [w' Hplot].
      rewrite Hplot. simpl.
      rewrite (writes_only_plot _ _ _ _ _ _ _ _ _ _ _ Hplot q Hp).
      by eapply Hup.
    + unfold upto_report. rewrite bind_run. unfold load_config.
      unfold_script. rewrite Hcfg. destruct (exn_kind_of e); done.
Qed.

Lemma run_only_adds_witness :
  (∀ config,
     env_config (env_with (Ok (scenario_A 1 2)) no_fault) = Ok config →
     ["notes.txt"]
       ≠ summary_file (config_get config "output_dir" "outputs") "20240131" ∧
     ["notes.txt"]
       ≠ plot_file (config_get config "output_dir" "outputs") "20240131") ∧
  files (run (env_with (Ok (scenario_A 1 2)) no_fault)
           (written ["notes.txt"] (Blob "keep me") world_empty)).1
    !! ["notes.txt"] = Some (Blob "keep me").
Proof.
  assert (H : ∀ config,
     env_config (env_with (Ok (scenario_A 1 2)) no_fault) = Ok config →
     ["notes.txt"]
       ≠ summary_file (config_get config "output_dir" "outputs") "20240131" ∧
     ["notes.txt"]
       ≠ plot_file (config_get config "output_dir" "outputs") "20240131").
  { intros config [= <-]. split; discriminate. }
  split; [exact H|].
  rewrite (proj2 (proj2 (proj2 (run_only_adds
             (env_with (Ok (scenario_A 1 2)) no_fault)
             (written ["notes.txt"] (Blob "keep me") world_empty))))
             ["notes.txt"] H).
  reflexivity.
Defined.

(** ** The series and the totals (lines 59 to 61 and 89) *)










(** ** The reported percentage (line 74) *)




(** ** The chart (lines 88 to 103) *)

Lemma mkdir_returns p w w' : mkdir p w = (w', Return tt) → p ∈ dirs w'.
Proof.
  unfold mkdir. case_decide; [done|]. intros [= <-].
  change (p ∈ dirs (with_dir p w)). apply in_dirs_with_dir. right.
  apply self_in_prefixes.
Qed.

(** Once the report is done, the output directory is there. *)
Lemma upto_report_dirs env w w5 config df today :
  upto_report env w = (w5, Return (config, df, today)) →
  Path (config_get config "output_dir" "outputs") ∈ dirs w5.
Proof.
  unfold upto_report. rewrite bind_run.
  destruct (load_config env w) as [w1 [cfg|c|e]] eqn:Hcfg; [|done..].
  rewrite bind_run.
  destruct (mkdir _ w1) as [w1' [[]|c|e]] eqn:Hmk; [|done..].
  apply mkdir_returns in Hmk. intros Hrest.
  match type of Hrest with
  | (?m ≫= ?f) w1' = _ =>
      assert (Hk : keeps_dirs (m ≫= f)) by frames;
      pose proof (Hk _ _ _ Hrest) as Hsub
  end.
  assert (cfg = config) as <-.
  { revert Hrest. unfold basicConfig, logging. rewrite !bind_run. simpl.
    rewrite ?bind_run.
    destruct (load_data _ _ _ _) as [w2 [df0|c|e]]; [|done..].
    rewrite !bind_run.
    destruct (validate _ _) as [w3 [[]|c|e]]; [|done..].
    rewrite !bind_run.
    destruct (report _ _ _ _) as [w4 [[df' t]|c|e]]; [|done..].
    by intros [= _ <- _ _]. }
  by apply Hsub.
Qed.

(** X12: when everything up to saving the chart succeeds and only the
    display of the chart fails, the chart file has been written all the
    same; the run logs the error, says nothing of a saved plot, and ends
    with status 0. *)
Theorem chart_saved_when_show_fails env w w5 config df today series e :
  let OUT := config_get config "output_dir" "outputs" in
  let figure :=
    mkChart series (config_get config "plot_title" "Daily Revenue Trend")
      (config_get config "plot_xlabel" "Date")
      (config_get config "plot_ylabel" "Revenue") in
  upto_report env w = (w5, Return (config, df, today)) →
  daily_revenue df (config_get config "date_column" "date") = Ok series →
  (∀ c, c ≠ PltShow → env_plt env c = None) →
  env_plt env PltShow = Some e →
  plot_file OUT today ∉ dirs w5 →
  run env w =
    (logged ERROR ("Error plotting daily revenue: " +:+ exn_msg e)
       (written (plot_file OUT today) (ChartPng figure) w5),
     0%Z).
Proof.
  intros OUT figure Hup Hdaily Hplt Hshow Hfile.
  pose proof (upto_report_dirs _ _ _ _ _ _ Hup) as Hdir. fold OUT in Hdir.
  unfold run. rewrite main_split, Hup. fold OUT.
  unfold plot, try_except, plot_body. rewrite Hdaily.
  rewrite (Hplt PltSavefig) by done. fold (plot_file OUT today).
  assert (parent (plot_file OUT today) ∈ dirs w5).
  { unfold plot_file. by rewrite parent_truediv. }
  assert (∀ c, c ≠ PltShow → ∀ u, plt env c u = (u, Return tt)) as Hok.
  { intros c Hc u. by apply plt_ok, Hplt. }
  rewrite bind_run, lift_Ok. cbv beta iota.
  do 7 (rewrite bind_run, Hok by done; cbv beta iota).
  rewrite bind_run, write_file_ok by done. cbv beta iota.
  rewrite bind_run, (plt_fault _ _ _ _ Hshow). reflexivity.
Qed.

Lemma chart_saved_when_show_fails_witness :
  (run (env_with (Ok (scenario_A 1 2))
          (λ c, match c with
                | PltShow => Some (Exn OtherError "no display")
                | _ => None
                end)) world_empty).2 = 0%Z ∧
  is_Some (files (run (env_with (Ok (scenario_A 1 2))
                         (λ c, match c with
                               | PltShow => Some (Exn OtherError "no display")
                               | _ => None
                               end)) world_empty).1
             !! plot_file "outputs" "20240131").
Proof.
  set (env := env_with (Ok (scenario_A 1 2))
                (λ c, match c with
                      | PltShow => Some (Exn OtherError "no display")
                      | _ => None
                      end)).
  destruct (upto_report env world_empty)
    as [w5 [[[config df] today]|c|e]] eqn:H1;
    [|vm_compute in H1; discriminate H1..].
  assert (Hc : config = ∅ ∧ today = "20240131").
  { vm_compute in H1. injection H1 as _ Hc _ Ht. by rewrite <-Hc, <-Ht. }
  destruct Hc as [-> ->].
  destruct (daily_revenue df (config_get ∅ "date_column" "date"))
    as [series|e] eqn:H2.
  2:{ exfalso. vm_compute in H1. injection H1 as _ Hdf. rewrite <-Hdf in H2.
      vm_compute in H2. discriminate H2. }
  assert (H3 : plot_file (config_get ∅ "output_dir" "outputs") "20240131"
               ∉ dirs w5).
  { vm_compute in H1. injection H1 as Hw _. rewrite <-Hw.
    apply (bool_decide_unpack _). vm_compute. exact I. }
  rewrite (chart_saved_when_show_fails env world_empty w5 ∅ df "20240131"
             series (Exn OtherError "no display") H1 H2
             (λ c, match c with PltShow => λ H, False_ind _ (H eq_refl)
                           | _ => λ _, eq_refl end) eq_refl H3).
  split; [reflexivity|]. cbn [fst files logged written].
  rewrite lookup_insert_eq. by eexists.
Defined.

Lemma plot_body_early_fault env OUT d t x y today df w :
  (∃ e, daily_revenue df d = Raised e) ∨
  (∃ c e, c ≠ PltSavefig ∧ c ≠ PltShow ∧ env_plt env c = Some e) →
  ∃ e, plot_body env OUT d t x y today df w = (w, Throw e).
Proof.
  intros Hfault. unfold plot_body.
  destruct (daily_revenue df d) as [series|e0] eqn:Hd;
    [|rewrite bind_run, lift_Raised; eauto].
  rewrite bind_run, lift_Ok. cbv beta iota.
  destruct (env_plt env PltFigure) as [e1|] eqn:H1;
    [rewrite bind_run, (plt_fault _ _ _ _ H1); eauto|].
  rewrite bind_run, (plt_ok _ _ _ H1). cbv beta iota.
  destruct (env_plt env PltPlot) as [e2|] eqn:H2;
    [rewrite bind_run, (plt_fault _ _ _ _ H2); eauto|].
  rewrite bind_run, (plt_ok _ _ _ H2). cbv beta iota.
  destruct (env_plt env PltTitle) as [e3|] eqn:H3;
    [rewrite bind_run, (plt_fault _ _ _ _ H3); eauto|].
  rewrite bind_run, (plt_ok _ _ _ H3). cbv beta iota.
  destruct (env_plt env PltXlabel) as [e4|] eqn:H4;
    [rewrite bind_run, (plt_fault _ _ _ _ H4); eauto|].
  rewrite bind_run, (plt_ok _ _ _ H4). cbv beta iota.
  destruct (env_plt env PltYlabel) as [e5|] eqn:H5;
    [rewrite bind_run, (plt_fault _ _ _ _ H5); eauto|].
  rewrite bind_run, (plt_ok _ _ _ H5). cbv beta iota.
  destruct (env_plt env PltGrid) as [e6|] eqn:H6;
    [rewrite bind_run, (plt_fault _ _ _ _ H6); eauto|].
  rewrite bind_run, (plt_ok _ _ _ H6). cbv beta iota.
  destruct (env_plt env PltTightLayout) as [e7|] eqn:H7;
    [rewrite bind_run, (plt_fault _ _ _ _ H7); eauto|].
  exfalso. destruct Hfault as [[e He]|(c & e & Hc1 & Hc2 & He)]; [done|].
  destruct c; congruence.
Qed.

(** X13: when the grouping or a matplotlib call before [savefig] fails,
    the plotting stage leaves no trace but one error line in the log: no
    chart file is written, nothing is displayed or printed, and the run
    ends with status 0. *)
Theorem no_chart_when_plotting_fails_early env w w5 config df today :
  upto_report env w = (w5, Return (config, df, today)) →
  (∃ e, daily_revenue df (config_get config "date_column" "date")
        = Raised e) ∨
  (∃ c e, c ≠ PltSavefig ∧ c ≠ PltShow ∧ env_plt env c = Some e) →
  ∃ e,
    run env w
    = (logged ERROR ("Error plotting daily revenue: " +:+ exn_msg e) w5,
       0%Z).
Proof.
  intros Hup Hfault.
  destruct (plot_body_early_fault env
              (config_get config "output_dir" "outputs")
              (config_get config "date_column" "date")
              (config_get config "plot_title" "Daily Revenue Trend")
              (config_get config "plot_xlabel" "Date")
              (config_get config "plot_ylabel" "Revenue") today df w5 Hfault)
    as [e He].
  exists e. unfold run. rewrite main_split, Hup. unfold plot, try_except.
  by rewrite He.
Qed.

Lemma no_chart_when_plotting_fails_early_witness :
  (run (env_with (Ok (scenario_A 1 2)) grid_fault) world_empty).2 = 0%Z ∧
  files (run (env_with (Ok (scenario_A 1 2)) grid_fault) world_empty).1
    !! plot_file "outputs" "20240131" = None.
Proof.
  destruct (upto_report (env_with (Ok (scenario_A 1 2)) grid_fault)
              world_empty) as [w5 [[[config df] today]|c|e]] eqn:H1;
    [|vm_compute in H1; discriminate H1..].
  assert (Hf : ∃ c e, c ≠ PltSavefig ∧ c ≠ PltShow ∧
                 env_plt (env_with (Ok (scenario_A 1 2)) grid_fault) c
                 = Some e).
  { exists PltGrid, (Exn OtherError "no display").
    split; [discriminate|]. split; [discriminate|reflexivity]. }
  destruct (no_chart_when_plotting_fails_early _ _ _ _ _ _ H1 (or_intror Hf))
    as [e ->].
  split; [reflexivity|]. cbn [fst files logged].
  vm_compute in H1. injection H1 as Hw _. rewrite <-Hw. reflexivity.
Defined.

(** ** The range of the reported percentage (lines 58 to 62 and 74) *)










(** ** Running again on the same day *)




